(** * Supply chain and inventory analysis: the derivation rules

    A shallow embedding of [supply_chain_analysis.py]: the per-row
    derivations of the inventory table, the inventory and supplier
    generators, the on-time-delivery rate, the supplier scorecard, the
    key figures and risk reports, the body of the sales loop and the bar
    colours of the dashboard.

    Numbers.  Python [int]s are [Z].  A binary64 value is modelled by the
    rational it denotes ([Q], compared with [==]); where the script divides
    without a guard the IEEE special values are added ([float64] below).
    The rounding error of binary64 arithmetic is not modelled: every
    finite operation is exact. *)

From Stdlib Require Import Ascii ZArith QArith Qround Bool String List Lia Lqa.
From Stdlib Require Import Permutation Morphisms Setoid.
From Stdlib Require DecimalString DecimalNat Finite.
Import ListNotations.

Open Scope Q_scope.

(** ** Numeric primitives *)

(** Python's [x < y] and [x > y] on finite numbers. *)
Definition Qlt_bool (x y : Q) : bool := negb (Qle_bool y x).
Definition Qgt_bool (x y : Q) : bool := Qlt_bool y x.

(** [numpy.rint]: the nearest integer, a tie going to the even one. *)
Definition rint (x : Q) : Z :=
  let f := Qfloor x in
  match Qcompare (x - inject_Z f) (1 # 2) with
  | Lt => f
  | Gt => (f + 1)%Z
  | Eq => if Z.even f then f else (f + 1)%Z
  end.

Definition pow10 (n : nat) : Z := (10 ^ Z.of_nat n)%Z.

(** Python's [round(x, n)] on a float and pandas' [round(n)]: the
    multiple of [10^-n] nearest to [x], a tie going to the even one. *)
Definition round (x : Q) (n : nat) : Q :=
  inject_Z (rint (x * inject_Z (pow10 n))) / inject_Z (pow10 n).

(** Python's [int(x)] on a float: truncation towards zero. *)
Definition int (x : Q) : Z := (Qnum x ÷ Zpos (Qden x))%Z.

(** Python's [x / y] on floats: a zero divisor raises [ZeroDivisionError],
    which is the result [None]. *)
Definition truediv (x y : Q) : option Q :=
  if Qeq_bool y 0 then None else Some (x / y).

(** ** The inventory table (script lines 58-88) *)

Module Inventory.

(** One element of [inventory_data]; the field names are the dict keys. *)
Record InventoryRecord : Type := mkInventoryRecord {
  SKU : string;
  Category : string;
  Supplier : string;
  Opening_Stock : Z;
  Current_Stock : Z;
  Avg_Daily_Sales : Q;
  Reorder_Point : Q;
  Days_of_Stock : Q;
  Stockout_Risk : string;
  Movement_Type : string;
  Unit_Cost : Q;
  Holding_Cost_Per_Day : Q
}.

(** Line 65. *)
Definition reorder_point (avg_daily_sales : Q) : Q := avg_daily_sales * 14.

(** Line 67: [current_stock / avg_daily_sales if avg_daily_sales > 0 else 0]. *)
Definition days_of_stock (current_stock : Z) (avg_daily_sales : Q)
    : option Q :=
  if Qgt_bool avg_daily_sales 0
  then truediv (inject_Z current_stock) avg_daily_sales
  else Some 0.

(** Line 68. *)
Definition stockout_risk (days_of_stock : Q) : string :=
  if Qlt_bool days_of_stock 7 then "High"%string
  else if Qlt_bool days_of_stock 14 then "Medium"%string
  else "Low"%string.

(** Line 69. *)
Definition movement (avg_daily_sales : Q) : string :=
  if Qgt_bool avg_daily_sales 10 then "Fast"%string
  else if Qgt_bool avg_daily_sales 5 then "Medium"%string
  else "Slow"%string.

(** The body of the loop over [skus] (lines 61-84), the random draws taken
    as arguments.  A fault in the division leaves no record.  The risk and
    the movement are computed from the unrounded values, the stored numbers
    are rounded. *)
Definition inventory_record (sku cat sup : string) (opening_stock : Z)
    (avg_daily_sales : Q) (current_stock : Z) (unit_cost holding_cost : Q)
    : option InventoryRecord :=
  let reorder_point := reorder_point avg_daily_sales in
  match days_of_stock current_stock avg_daily_sales with
  | None => None
  | Some days_of_stock =>
      let stockout_risk := stockout_risk days_of_stock in
      let movement := movement avg_daily_sales in
      Some {| SKU := sku;
              Category := cat;
              Supplier := sup;
              Opening_Stock := opening_stock;
              Current_Stock := current_stock;
              Avg_Daily_Sales := round avg_daily_sales 2;
              Reorder_Point := round reorder_point 0;
              Days_of_Stock := round days_of_stock 1;
              Stockout_Risk := stockout_risk;
              Movement_Type := movement;
              Unit_Cost := round unit_cost 2;
              Holding_Cost_Per_Day := round holding_cost 2 |}
  end.

(** Lines 87-88: the two columns added to [df_inv]. *)
Definition Inventory_Value (r : InventoryRecord) : Q :=
  inject_Z (Current_Stock r) * Unit_Cost r.

Definition Holding_Cost_Total (r : InventoryRecord) : Q :=
  inject_Z (Current_Stock r) * Holding_Cost_Per_Day r * 30.

End Inventory.

(** ** binary64 values with the IEEE special values

    The supplier table divides two integer columns without a guard
    (line 126), so its floating-point columns range over the special
    values as well.  A finite value is the rational it denotes; there is one
    zero (the script never produces a negative zero: its divisors are
    integer counts). *)

Inductive float64 : Type :=
| Finite (q : Q)
| PosInf
| NegInf
| NaN.

(** The same value: [==] on the finite ones. *)
Definition feq (x y : float64) : Prop :=
  match x, y with
  | Finite a, Finite b => a == b
  | PosInf, PosInf | NegInf, NegInf | NaN, NaN => True
  | _, _ => False
  end.

Definition isnan (x : float64) : bool :=
  match x with NaN => true | _ => false end.

(** Signs, as the result of comparing with zero. *)
Definition sign (x : float64) : comparison :=
  match x with
  | Finite q => Qcompare q 0
  | PosInf => Gt
  | NegInf => Lt
  | NaN => Eq
  end.

Definition mul_sign (s t : comparison) : comparison :=
  match s, t with
  | Eq, _ | _, Eq => Eq
  | Gt, Gt | Lt, Lt => Gt
  | _, _ => Lt
  end.

(** The infinity of a sign; no sign (0 * inf, 0 / 0) gives NaN. *)
Definition inf_of_sign (s : comparison) : float64 :=
  match s with Gt => PosInf | Lt => NegInf | Eq => NaN end.

Definition fadd (x y : float64) : float64 :=
  match x, y with
  | NaN, _ | _, NaN => NaN
  | Finite a, Finite b => Finite (a + b)
  | PosInf, NegInf | NegInf, PosInf => NaN
  | PosInf, _ | _, PosInf => PosInf
  | NegInf, _ | _, NegInf => NegInf
  end.

Definition fneg (x : float64) : float64 :=
  match x with
  | Finite a => Finite (- a)
  | PosInf => NegInf
  | NegInf => PosInf
  | NaN => NaN
  end.

Definition fsub (x y : float64) : float64 := fadd x (fneg y).

Definition fmul (x y : float64) : float64 :=
  match x, y with
  | NaN, _ | _, NaN => NaN
  | Finite a, Finite b => Finite (a * b)
  | _, _ => inf_of_sign (mul_sign (sign x) (sign y))
  end.

Definition fdiv (x y : float64) : float64 :=
  match x, y with
  | NaN, _ | _, NaN => NaN
  | Finite a, Finite b =>
      if Qeq_bool b 0 then inf_of_sign (sign x) else Finite (a / b)
  | Finite _, _ => Finite 0
  | _, Finite b => inf_of_sign (mul_sign (sign x) (if Qlt_bool b 0 then Lt else Gt))
  | _, _ => NaN
  end.

(** [x > y]: false as soon as one side is NaN. *)
Definition fgt_bool (x y : float64) : bool :=
  match x, y with
  | NaN, _ | _, NaN => false
  | Finite a, Finite b => Qgt_bool a b
  | PosInf, PosInf | NegInf, _ => false
  | PosInf, _ => true
  | Finite _, NegInf => true
  | Finite _, PosInf => false
  end.

(** [Series.round(n)]: the special values are left as they are. *)
Definition fround (x : float64) (n : nat) : float64 :=
  match x with
  | Finite q => Finite (round q n)
  | _ => x
  end.

(** numpy's true division of two integers. *)
Definition true_divide (a b : Z) : float64 :=
  fdiv (Finite (inject_Z a)) (Finite (inject_Z b)).

(** [Series.sum] and the [mean] of a group: NaN entries are skipped, a
    group with nothing left has mean NaN. *)
Fixpoint fsum (xs : list float64) : float64 :=
  match xs with
  | [] => Finite 0
  | x :: xs' => fadd x (fsum xs')
  end.

Definition dropna (xs : list float64) : list float64 :=
  filter (fun x => negb (isnan x)) xs.

Definition mean (xs : list float64) : float64 :=
  let ys := dropna xs in
  match ys with
  | [] => NaN
  | _ :: _ => fdiv (fsum ys) (Finite (inject_Z (Z.of_nat (List.length ys))))
  end.

(** ** The random source

    The script draws from numpy's global generator.  Its state is threaded
    explicitly; a draw returns the value and the next state.  Only the
    ranges of the draws are assumed ([RandomRanges]), not the algorithm. *)

Class RandomState (rng : Type) : Type := {
  (** [np.random.randint(low, high)] *)
  randint : Z -> Z -> rng -> Z * rng;
  (** [np.random.uniform(low, high)] *)
  uniform : Q -> Q -> rng -> Q * rng
}.

Class RandomRanges (rng : Type) {RS : RandomState rng} : Prop := {
  randint_range : forall lo hi s,
    (lo < hi)%Z -> (lo <= fst (randint lo hi s) < hi)%Z;
  uniform_range : forall lo hi s,
    lo < hi -> lo <= fst (uniform lo hi s) /\ fst (uniform lo hi s) < hi
}.

(** Computations that draw. *)
Definition Gen (rng A : Type) : Type := rng -> A * rng.

Definition ret {rng A : Type} (a : A) : Gen rng A := fun s => (a, s).

Definition bind {rng A B : Type} (m : Gen rng A) (k : A -> Gen rng B)
    : Gen rng B :=
  fun s => let (a, s') := m s in k a s'.

Notation "x <- m ;; k" := (bind m (fun x => k))
  (at level 61, m at next level, right associativity).

(** A [for] loop that appends one result per element. *)
Fixpoint for_each {rng A B : Type} (xs : list A) (body : A -> Gen rng B)
    : Gen rng (list B) :=
  match xs with
  | [] => ret []
  | x :: xs' =>
      y <- body x ;;
      ys <- for_each xs' body ;;
      ret (y :: ys)
  end.

(** A linear congruential source: an instance of the interface, used to
    run the generator on concrete states. *)
Definition lcg_next (s : Z) : Z := ((s * 1103515245 + 12345) mod 2147483648)%Z.

#[export] Instance lcg : RandomState Z := {|
  randint lo hi s := ((lo + lcg_next s mod (hi - lo))%Z, lcg_next s);
  uniform lo hi s :=
    (lo + (hi - lo) * ((lcg_next s mod 1000)%Z # 1000), lcg_next s)
|}.

(** ** The supplier table (script lines 106-127) *)

Module SupplierData.

Definition suppliers : list string :=
  ["SupplierA"; "SupplierB"; "SupplierC"; "SupplierD"; "SupplierE"]%string.

(** [pd.period_range('2024-01', '2024-12', freq='M')], by month number. *)
Definition months : list nat := seq 1 12.

(** One element of [supplier_data]. *)
Record SupplierMonthlyRecord : Type := mkSupplierMonthlyRecord {
  Supplier : string;
  Month : nat;
  Total_Orders : Z;
  On_Time_Deliveries : Z;
  Defect_Rate_Pct : Q;
  Actual_Lead_Time : Z;
  Promised_Lead_Time : Z
}.

(** The body of the inner loop (lines 110-123). *)
Definition supplier_month {rng : Type} {RS : RandomState rng}
    (sup : string) (month : nat) : Gen rng SupplierMonthlyRecord :=
  orders <- randint 20 80 ;;
  fraction <- uniform 0.65 0.98 ;;
  let on_time := int (inject_Z orders * fraction) in
  defect <- uniform 0.5 8.0 ;;
  let defect_rate := round defect 2 in
  lead_time_actual <- randint 7 21 ;;
  let lead_time_promised := 14%Z in
  ret {| Supplier := sup;
         Month := month;
         Total_Orders := orders;
         On_Time_Deliveries := on_time;
         Defect_Rate_Pct := defect_rate;
         Actual_Lead_Time := lead_time_actual;
         Promised_Lead_Time := lead_time_promised |}.

(** Lines 107-123: every supplier, every month, in that order. *)
Definition supplier_data {rng : Type} {RS : RandomState rng}
    : Gen rng (list SupplierMonthlyRecord) :=
  rows <- for_each suppliers (fun sup => for_each months (supplier_month sup)) ;;
  ret (List.concat rows).

(** What the loop body makes of its draws: the total is in range and the
    deliveries are the truncated share of it. *)
Definition well_drawn (r : SupplierMonthlyRecord) : Prop :=
  exists fraction : Q,
    0.65 <= fraction /\ fraction < 0.98 /\
    (20 <= Total_Orders r < 80)%Z /\
    On_Time_Deliveries r = int (inject_Z (Total_Orders r) * fraction).

(** Line 126: the on-time-delivery rate of a row, in percent. *)
Definition otd_rate (on_time total : Z) : float64 :=
  fround (fmul (true_divide on_time total) (Finite 100)) 2.

Definition OTD_Rate (r : SupplierMonthlyRecord) : float64 :=
  otd_rate (On_Time_Deliveries r) (Total_Orders r).

(** Line 127. *)
Definition Lead_Time_Variance (r : SupplierMonthlyRecord) : Z :=
  (Actual_Lead_Time r - Promised_Lead_Time r)%Z.

End SupplierData.

(** ** The supplier scorecard (script lines 173-186) *)

Module Scorecard.

Import SupplierData.

(** One row of [supplier_scorecard], indexed by the supplier. *)
Record ScorecardEntry : Type := mkScorecardEntry {
  Avg_OTD_Rate : float64;
  Avg_Defect_Rate : float64;
  Avg_Lead_Time_Variance : float64;
  Total_Orders : Z;
  Performance_Score : float64;
  Rating : string
}.

(** The rows of one group of [df_sup.groupby('Supplier')]. *)
Definition group (df : list SupplierMonthlyRecord) (sup : string)
    : list SupplierMonthlyRecord :=
  filter (fun r => String.eqb (Supplier r) sup) df.

(** The three aggregated float columns, before [.round(2)]. *)
Definition mean_OTD_Rate (g : list SupplierMonthlyRecord) : float64 :=
  mean (map OTD_Rate g).

Definition mean_Defect_Rate_Pct (g : list SupplierMonthlyRecord) : float64 :=
  mean (map (fun r => Finite (Defect_Rate_Pct r)) g).

Definition mean_Lead_Time_Variance (g : list SupplierMonthlyRecord) : float64 :=
  mean (map (fun r => Finite (inject_Z (Lead_Time_Variance r))) g).

Definition sum_Total_Orders (g : list SupplierMonthlyRecord) : Z :=
  fold_right Z.add 0%Z (map SupplierData.Total_Orders g).

(** Lines 179-183: the weighted score of the stored averages, rounded. *)
Definition weighted_score (avg_otd avg_defect avg_lead_variance : float64)
    : float64 :=
  fsub (fsub (fmul avg_otd (Finite 0.5)) (fmul avg_defect (Finite 3)))
       (fmul avg_lead_variance (Finite 2)).

Definition performance_score (avg_otd avg_defect avg_lead_variance : float64)
    : float64 :=
  fround (weighted_score avg_otd avg_defect avg_lead_variance) 2.

(** Lines 184-186: the [lambda] applied to the score column. *)
Definition rating (x : float64) : string :=
  if fgt_bool x (Finite 40) then "⭐⭐⭐ Excellent"%string
  else if fgt_bool x (Finite 30) then "⭐⭐ Good"%string
  else "⭐ Needs Improvement"%string.

(** The scorecard row of a group: aggregate, round the frame to two
    decimals, then add the score and the rating columns. *)
Definition scorecard_entry (g : list SupplierMonthlyRecord) : ScorecardEntry :=
  let avg_otd := fround (mean_OTD_Rate g) 2 in
  let avg_defect := fround (mean_Defect_Rate_Pct g) 2 in
  let avg_lead_variance := fround (mean_Lead_Time_Variance g) 2 in
  let score := performance_score avg_otd avg_defect avg_lead_variance in
  {| Avg_OTD_Rate := avg_otd;
     Avg_Defect_Rate := avg_defect;
     Avg_Lead_Time_Variance := avg_lead_variance;
     Total_Orders := sum_Total_Orders g;
     Performance_Score := score;
     Rating := rating score |}.

(** [supplier_scorecard.loc[sup]]: a supplier without rows has no entry. *)
Definition supplier_scorecard (df : list SupplierMonthlyRecord) (sup : string)
    : option ScorecardEntry :=
  match group df sup with
  | [] => None
  | g => Some (scorecard_entry g)
  end.

End Scorecard.

(** ** The inventory generator (script lines 54-86) *)

Module InventoryData.

Import Inventory.

(** Line 54. *)
Definition categories : list string :=
  ["Electronics"; "Textiles"; "Furniture"; "Packaging"; "Raw Materials"]%string.

(** Python's [str(i)] on a non-negative [int]: its decimal digits. *)
Definition str (i : nat) : string :=
  DecimalString.NilEmpty.string_of_uint (Nat.to_uint i).

Fixpoint zeros (n : nat) : string :=
  match n with
  | O => EmptyString
  | S n' => String "0"%char (zeros n')
  end.

(** [s.zfill(width)]: zeros on the left up to [width] characters, put
    after a leading sign; a string that is long enough is returned as it
    is. *)
Definition zfill (s : string) (width : nat) : string :=
  let fill := zeros (width - String.length s) in
  match s with
  | String c s' =>
      if (Ascii.eqb c "+"%char || Ascii.eqb c "-"%char)%bool
      then String c (fill ++ s')
      else fill ++ s
  | EmptyString => fill
  end%string.

(** Line 56: [f'SKU-{str(i).zfill(4)}']. *)
Definition sku (i : nat) : string := ("SKU-" ++ zfill (str i) 4)%string.

Definition skus : list string := map sku (seq 1 100).

(** [np.random.choice(xs)] on a list: the element at an index drawn from
    [0, len(xs)). *)
Definition choice {rng : Type} {RS : RandomState rng} (xs : list string)
    : Gen rng string :=
  i <- randint 0 (Z.of_nat (List.length xs)) ;;
  ret (nth (Z.to_nat i) xs EmptyString).

(** The body of the loop (lines 61-84) with its draws, in the order the
    script makes them. *)
Definition inventory_row {rng : Type} {RS : RandomState rng} (sku : string)
    : Gen rng (option InventoryRecord) :=
  cat <- choice categories ;;
  sup <- choice SupplierData.suppliers ;;
  opening_stock <- randint 50 500 ;;
  avg_daily_sales <- uniform 1 20 ;;
  current_stock <- randint 0 400 ;;
  unit_cost <- uniform 50 2000 ;;
  holding_cost <- uniform 0.5 5 ;;
  ret (inventory_record sku cat sup opening_stock avg_daily_sales
                        current_stock unit_cost holding_cost).

(** The list the loop has appended to when it ends; a fault in one
    iteration leaves none. *)
Fixpoint appended {A : Type} (rows : list (option A)) : option (list A) :=
  match rows with
  | [] => Some []
  | None :: _ => None
  | Some r :: rows' =>
      match appended rows' with
      | Some rs => Some (r :: rs)
      | None => None
      end
  end.

(** Lines 59-84. *)
Definition inventory_data {rng : Type} {RS : RandomState rng}
    : Gen rng (option (list InventoryRecord)) :=
  rows <- for_each skus inventory_row ;;
  ret (appended rows).

(** What the loop body makes of its draws. *)
Definition in_range (r : InventoryRecord) : Prop :=
  In (Category r) categories /\
  In (Supplier r) SupplierData.suppliers /\
  (50 <= Opening_Stock r < 500)%Z /\
  (0 <= Current_Stock r < 400)%Z /\
  1 <= Avg_Daily_Sales r <= 20 /\
  14 <= Reorder_Point r <= 280 /\
  0 <= Days_of_Stock r <= 399 /\
  50 <= Unit_Cost r <= 2000 /\
  0.5 <= Holding_Cost_Per_Day r <= 5 /\
  In (Stockout_Risk r) ["High"; "Medium"; "Low"]%string /\
  In (Movement_Type r) ["Fast"; "Medium"; "Slow"]%string.

End InventoryData.

(** ** Key figures and reports on the inventory table (lines 139-166) *)

Module Reports.

Import Inventory.

Definition has_risk (risk : string) (r : InventoryRecord) : bool :=
  String.eqb (Stockout_Risk r) risk.

Definition has_category (cat : string) (r : InventoryRecord) : bool :=
  String.eqb (Category r) cat.

(** Lines 139-140. *)
Definition total_inv_value (df_inv : list InventoryRecord) : Q :=
  fold_right Qplus 0 (map Inventory_Value df_inv).

Definition total_holding_cost (df_inv : list InventoryRecord) : Q :=
  fold_right Qplus 0 (map Holding_Cost_Total df_inv).

(** Lines 141-142. *)
Definition high_risk_skus (df_inv : list InventoryRecord) : nat :=
  List.length (filter (has_risk "High") df_inv).

Definition slow_moving_skus (df_inv : list InventoryRecord) : nat :=
  List.length
    (filter (fun r => String.eqb (Movement_Type r) "Slow") df_inv).

(** Line 160: [groupby(['Category', 'Stockout_Risk']).size()
    .unstack(fill_value=0)].  The table has a row for each category and a
    column for each risk that occur in [df_inv]; a cell outside them is
    [None], a combination that does not occur is filled with 0. *)
Definition risk_summary (df_inv : list InventoryRecord) (cat risk : string)
    : option nat :=
  if (existsb (has_category cat) df_inv && existsb (has_risk risk) df_inv)%bool
  then Some (List.length
               (filter (fun r => has_category cat r && has_risk risk r)%bool
                       df_inv))
  else None.

(** The cell as the report reads it, an absent one counting for 0. *)
Definition cell (c : option nat) : nat :=
  match c with Some n => n | None => O end.

(** Line 164: the first ten high-risk rows, five columns of each. *)
Definition high_risk_detail (df_inv : list InventoryRecord)
    : list (string * string * Z * Q * Q) :=
  firstn 10
    (map (fun r => (SKU r, Category r, Current_Stock r, Days_of_Stock r,
                    Avg_Daily_Sales r))
         (filter (has_risk "High") df_inv)).

End Reports.

(** ** The body of the sales loop (script lines 95-100) *)

Module Sales.

(** Line 95. *)
Definition base_sales : list (string * Z) :=
  [("Electronics", 150); ("Textiles", 200); ("Furniture", 80);
   ("Packaging", 300); ("Raw Materials", 250)]%string%Z.

(** [base_sales[cat]]: [None] is the [KeyError]. *)
Fixpoint getitem (d : list (string * Z)) (key : string) : option Z :=
  match d with
  | [] => None
  | (k, v) :: d' => if String.eqb k key then Some v else getitem d' key
  end.

(** Line 98, from the value of the seasonal factor and the noise drawn. *)
Definition units_sold (cat : string) (seasonality noise : Q) : option Z :=
  match getitem base_sales cat with
  | None => None
  | Some base => Some (Z.max 0 (int (inject_Z base * seasonality * noise)))
  end.

(** Line 99, from the price drawn. *)
Definition revenue (units_sold : Z) (price : Q) : Q :=
  inject_Z units_sold * price.

End Sales.

(** ** Bar colours of the dashboard (lines 37-44, 228, 262, 279) *)

Module Dashboard.

Definition COLORS : list (string * string) :=
  [("primary", "#2E75B6"); ("secondary", "#ED7D31"); ("success", "#70AD47");
   ("danger", "#FF0000"); ("warning", "#FFC000"); ("neutral", "#A5A5A5")]%string.

(** [d[key]]: [None] is the [KeyError]. *)
Fixpoint getitem (d : list (string * string)) (key : string) : option string :=
  match d with
  | [] => None
  | (k, v) :: d' => if String.eqb k key then Some v else getitem d' key
  end.

(** [x >= y] and [x < y]: false as soon as one side is NaN. *)
Definition fge_bool (x y : float64) : bool :=
  match x, y with
  | NaN, _ | _, NaN => false
  | Finite a, Finite b => Qle_bool b a
  | PosInf, _ | _, NegInf => true
  | _, _ => false
  end.

Definition flt_bool (x y : float64) : bool := fgt_bool y x.

(** Line 228: the bar of a supplier's average on-time-delivery rate. *)
Definition otd_color (v : float64) : option string :=
  if fge_bool v (Finite 85) then getitem COLORS "success"
  else if fge_bool v (Finite 75) then getitem COLORS "warning"
  else getitem COLORS "danger".

(** Line 262: the bar of a supplier's average defect rate. *)
Definition defect_color (v : float64) : option string :=
  if flt_bool v (Finite 3) then getitem COLORS "success"
  else if flt_bool v (Finite 5) then getitem COLORS "warning"
  else getitem COLORS "danger".

(** Line 279: the bar of a supplier's performance score. *)
Definition score_color (v : float64) : option string :=
  if fgt_bool v (Finite 40) then getitem COLORS "success"
  else if fgt_bool v (Finite 30) then getitem COLORS "warning"
  else getitem COLORS "danger".

End Dashboard.

(** * Properties *)

(** ** Comparisons and rounding *)

Lemma Qlt_bool_iff (x y : Q) : Qlt_bool x y = true <-> x < y.
Proof.
  unfold Qlt_bool. rewrite negb_true_iff, <- not_true_iff_false, Qle_bool_iff.
  split; [apply Qnot_le_lt | apply Qlt_not_le].
Qed.

Lemma Qlt_bool_false_iff (x y : Q) : Qlt_bool x y = false <-> y <= x.
Proof.
  unfold Qlt_bool. rewrite negb_false_iff. apply Qle_bool_iff.
Qed.

Lemma Qgt_bool_iff (x y : Q) : Qgt_bool x y = true <-> y < x.
Proof. apply Qlt_bool_iff. Qed.

Lemma Qgt_bool_false_iff (x y : Q) : Qgt_bool x y = false <-> x <= y.
Proof. apply Qlt_bool_false_iff. Qed.

(** Turn the outcome of the script's comparisons into order facts. *)
Ltac order_facts :=
  repeat match goal with
  | H : Qlt_bool _ _ = true |- _ => apply Qlt_bool_iff in H
  | H : Qlt_bool _ _ = false |- _ => apply Qlt_bool_false_iff in H
  | H : Qgt_bool _ _ = true |- _ => apply Qgt_bool_iff in H
  | H : Qgt_bool _ _ = false |- _ => apply Qgt_bool_false_iff in H
  end.

#[export] Instance rint_comp : Proper (Qeq ==> eq) rint.
Proof.
  intros x y Hxy. unfold rint.
  rewrite (Qfloor_comp _ _ Hxy).
  assert (E : x - inject_Z (Qfloor y) == y - inject_Z (Qfloor y))
    by now rewrite Hxy.
  now rewrite (Qcompare_comp _ _ E _ _ (Qeq_refl (1 # 2))).
Qed.

#[export] Instance round_comp : Proper (Qeq ==> eq ==> eq) round.
Proof.
  intros x y Hxy n ? <-. unfold round.
  assert (E : x * inject_Z (pow10 n) == y * inject_Z (pow10 n))
    by now rewrite Hxy.
  now rewrite (rint_comp _ _ E).
Qed.

(** ** Inventory derivations *)

Section InventoryRules.

Import Inventory.

Lemma truediv_nonzero (x y : Q) : ~ y == 0 -> truediv x y = Some (x / y).
Proof.
  intros H. unfold truediv.
  destruct (Qeq_bool y 0) eqn:E; [|reflexivity].
  now apply Qeq_bool_iff in E.
Qed.

Lemma days_of_stock_pos (current_stock : Z) (avg_daily_sales : Q) :
  0 < avg_daily_sales ->
  days_of_stock current_stock avg_daily_sales
  = Some (inject_Z current_stock / avg_daily_sales).
Proof.
  intros H. unfold days_of_stock.
  rewrite (proj2 (Qgt_bool_iff _ _) H).
  apply truediv_nonzero. lra.
Qed.

Lemma days_of_stock_nonpos (current_stock : Z) (avg_daily_sales : Q) :
  avg_daily_sales <= 0 ->
  days_of_stock current_stock avg_daily_sales = Some 0.
Proof.
  intros H. unfold days_of_stock.
  now rewrite (proj2 (Qgt_bool_false_iff _ _) H).
Qed.

(** C3: the stock-out risk is High exactly below 7 days of stock, Medium
    exactly from 7 (included) to 14 (excluded) and Low exactly from 14 on;
    at 7 it is Medium and at 14 it is Low. *)
Theorem stockout_risk_piecewise (d : Q) :
  (stockout_risk d = "High"%string <-> d < 7) /\
  (stockout_risk d = "Medium"%string <-> 7 <= d /\ d < 14) /\
  (stockout_risk d = "Low"%string <-> 14 <= d) /\
  stockout_risk 7 = "Medium"%string /\
  stockout_risk 14 = "Low"%string.
Proof.
  unfold stockout_risk.
  destruct (Qlt_bool d 7) eqn:H7; destruct (Qlt_bool d 14) eqn:H14;
    order_facts;
    repeat split; intros; try discriminate; try reflexivity; try lra.
Qed.

(** C4: the movement type is Fast exactly above 10 units a day, Medium
    exactly above 5 and up to 10, Slow exactly up to 5. *)
Theorem movement_piecewise (s : Q) :
  (movement s = "Fast"%string <-> 10 < s) /\
  (movement s = "Medium"%string <-> 5 < s /\ s <= 10) /\
  (movement s = "Slow"%string <-> s <= 5).
Proof.
  unfold movement.
  destruct (Qgt_bool s 10) eqn:H10; destruct (Qgt_bool s 5) eqn:H5;
    order_facts;
    repeat split; intros; try discriminate; try reflexivity; try lra.
Qed.




(** C2, the claim as stated fails: a sales rate of exactly 5 is not above
    5, so the movement type is Slow, not Medium. *)
Lemma scenario_zero_stock_movement_is_slow :
  movement 5 = "Slow"%string /\ movement 5 <> "Medium"%string.
Proof. split; [reflexivity | discriminate]. Qed.

(** C2 (amended): with no stock and 5 sales a day the record has 0 days of
    stock, the risk High and the movement type Slow. *)
Theorem scenario_zero_stock (sku cat sup : string) (opening_stock : Z)
    (unit_cost holding_cost : Q) :
  exists d r,
    days_of_stock 0 5 = Some d /\ d == 0 /\
    inventory_record sku cat sup opening_stock 5 0 unit_cost holding_cost
    = Some r /\
    Days_of_Stock r == 0 /\
    Stockout_Risk r = "High"%string /\
    Movement_Type r = "Slow"%string.
Proof.
  do 2 eexists. repeat split.
Qed.

(** C9: the stored risk is the rule applied to the unrounded days of
    stock, the stored days of stock are that value rounded to one decimal;
    with 87 in stock and 12.5 sales a day (6.96 days) the record stores 7.0
    days and the risk High, which the rule applied to the stored days does
    not give. *)
Theorem stored_risk_from_unrounded_days :
  (forall sku cat sup opening_stock avg_daily_sales current_stock
          unit_cost holding_cost r,
     inventory_record sku cat sup opening_stock avg_daily_sales
                      current_stock unit_cost holding_cost = Some r ->
     exists d,
       days_of_stock current_stock avg_daily_sales = Some d /\
       Stockout_Risk r = stockout_risk d /\
       Days_of_Stock r = round d 1) /\
  (forall sku cat sup opening_stock unit_cost holding_cost,
     exists d r,
       days_of_stock 87 12.5 = Some d /\ d == 6.96 /\
       inventory_record sku cat sup opening_stock 12.5 87
                        unit_cost holding_cost = Some r /\
       7 <= Days_of_Stock r /\
       Stockout_Risk r = "High"%string /\
       stockout_risk (Days_of_Stock r) = "Medium"%string).
Proof.
  split.
  - intros sku cat sup os avg cs uc hc r H.
    unfold inventory_record in H.
    destruct (days_of_stock cs avg) as [d|]; [|discriminate].
    injection H as <-. exists d. repeat split.
  - intros. do 2 eexists. repeat split; discriminate.
Qed.

End InventoryRules.

(** ** Facts on [float64] *)

Section Float64Facts.

#[export] Instance feq_equiv : Equivalence feq.
Proof.
  split.
  - intros [a| | |]; simpl; auto with qarith.
  - intros [a| | |] [b| | |]; simpl; auto with qarith.
  - intros [a| | |] [b| | |] [c| | |]; simpl; try tauto.
    apply Qeq_trans.
Qed.

#[export] Instance fadd_comp : Proper (feq ==> feq ==> feq) fadd.
Proof.
  intros [a| | |] [a'| | |] Ha [b| | |] [b'| | |] Hb; simpl in *;
    try tauto.
  now rewrite Ha, Hb.
Qed.






End Float64Facts.

(** ** The on-time-delivery rate *)

Section OnTimeDeliveryRate.

Import SupplierData.


Lemma true_divide_nonzero (a b : Z) :
  b <> 0%Z -> true_divide a b = Finite (inject_Z a / inject_Z b).
Proof.
  intros Hb. unfold true_divide, fdiv.
  destruct (Qeq_bool (inject_Z b) 0) eqn:E; [|reflexivity].
  apply Qeq_bool_iff in E. unfold Qeq in E. simpl in E. lia.
Qed.




End OnTimeDeliveryRate.

(** ** Score and rating *)

Section ScoreAndRating.

Import Scorecard.

Lemma weighted_score_Finite (a d v : Q) :
  weighted_score (Finite a) (Finite d) (Finite v)
  = Finite (a * 0.5 + - (d * 3) + - (v * 2)).
Proof. reflexivity. Qed.



End ScoreAndRating.

(** ** The supplier generator *)

(** Truncation never exceeds an integer bound of a non-negative value. *)
Lemma int_le_bound (x : Q) (n : Z) :
  0 <= x -> x <= inject_Z n -> (int x <= n)%Z.
Proof.
  intros H0 Hn. unfold int.
  assert (Hnum : (0 <= Qnum x)%Z).
  { unfold Qle in H0. simpl in H0. lia. }
  rewrite Z.quot_div_nonneg by lia.
  change (Qnum x / Z.pos (Qden x))%Z with (Qfloor (Qnum x # Qden x)).
  replace (Qnum x # Qden x) with x by now destruct x.
  rewrite <- (Qfloor_Z n). now apply Qfloor_resp_le.
Qed.

Lemma lcg_ranges : RandomRanges Z.
Proof.
  split.
  - intros lo hi s H. simpl.
    pose proof (Z.mod_pos_bound (lcg_next s) (hi - lo)). lia.
  - intros lo hi s H. simpl.
    pose proof (Z.mod_pos_bound (lcg_next s) 1000 eq_refl) as [Hm0 Hm1].
    set (m := (lcg_next s mod 1000)%Z) in *.
    assert (F0 : 0 <= m # 1000) by (unfold Qle; simpl; lia).
    assert (F1 : m # 1000 < 1) by (unfold Qlt; simpl; lia).
    split; nra.
Qed.

Section SupplierGenerator.

Import SupplierData.

Context {rng : Type} {RS : RandomState rng} {RR : RandomRanges rng}.

Lemma for_each_Forall {A B : Type} (P : B -> Prop) (xs : list A)
    (body : A -> Gen rng B) :
  (forall x s, P (fst (body x s))) ->
  forall s, Forall P (fst (for_each xs body s)).
Proof.
  intros Hbody. induction xs as [|x xs IH]; intros s; simpl.
  - constructor.
  - unfold bind, ret.
    pose proof (Hbody x s) as Hx.
    destruct (body x s) as [y s1]. simpl in Hx.
    pose proof (IH s1) as Hxs.
    destruct (for_each xs body s1) as [ys s2]. simpl in *.
    now constructor.
Qed.

Lemma supplier_month_well_drawn (sup : string) (month : nat) (s : rng) :
  well_drawn (fst (supplier_month sup month s)).
Proof.
  unfold supplier_month, bind, ret.
  pose proof (randint_range 20 80 s eq_refl) as Horders.
  destruct (randint 20 80 s) as [orders s1]. simpl in Horders.
  pose proof (uniform_range 0.65 0.98 s1 eq_refl) as [Hlo Hhi].
  destruct (uniform 0.65 0.98 s1) as [fraction s2]. simpl in Hlo, Hhi.
  destruct (uniform 0.5 8.0 s2) as [defect s3].
  destruct (randint 7 21 s3) as [lead s4]. simpl.
  exists fraction. simpl. repeat split; try assumption; lia.
Qed.

Lemma well_drawn_on_time_le_total (r : SupplierMonthlyRecord) :
  well_drawn r -> (On_Time_Deliveries r <= Total_Orders r)%Z.
Proof.
  intros (fraction & Hlo & Hhi & Horders & ->).
  assert (Ho : 20 <= inject_Z (Total_Orders r)).
  { rewrite <- (Zle_Qle 20). lia. }
  apply int_le_bound; nra.
Qed.

(** C7: every record of the supplier generator has at most as many
    on-time deliveries as orders: the total is drawn from 20 to 79 and
    the deliveries are the total times a fraction drawn from [0.65, 0.98),
    truncated to an integer. *)
Theorem on_time_deliveries_le_total_orders (s : rng) :
  Forall well_drawn (fst (supplier_data s)) /\
  Forall (fun r => (On_Time_Deliveries r <= Total_Orders r)%Z)
         (fst (supplier_data s)).
Proof.
  assert (H : Forall well_drawn (fst (supplier_data s))).
  { unfold supplier_data, bind, ret.
    pose proof (for_each_Forall (Forall well_drawn) suppliers
      (fun sup => for_each months (supplier_month sup))) as Houter.
    specialize (Houter (fun sup s' =>
      for_each_Forall well_drawn months (supplier_month sup)
        (supplier_month_well_drawn sup) s') s).
    destruct (for_each suppliers _ s) as [rows s1]. simpl in *.
    now apply Forall_concat. }
  split; [exact H|].
  eapply Forall_impl; [|exact H].
  exact well_drawn_on_time_le_total.
Qed.

End SupplierGenerator.

Lemma on_time_deliveries_le_total_orders_witness :
  Forall (fun r =>
            (SupplierData.On_Time_Deliveries r <= SupplierData.Total_Orders r)%Z)
         (fst (SupplierData.supplier_data (rng := Z) 42%Z)).
Proof.
  exact (proj2 (@on_time_deliveries_le_total_orders Z lcg lcg_ranges 42%Z)).
Defined.

(** ** The scorecard aggregation *)

Section ScorecardAggregation.

Import SupplierData Scorecard.

(** The total of orders is an integer sum: its value does not depend on
    the order of the rows. *)
Lemma sum_Total_Orders_Permutation (g g' : list SupplierMonthlyRecord) :
  Permutation g g' -> sum_Total_Orders g = sum_Total_Orders g'.
Proof.
  unfold sum_Total_Orders.
  induction 1 as [|x xs ys _ IH|x y xs|xs ys zs _ IH1 _ IH2]; simpl; lia.
Qed.





End ScorecardAggregation.

(** * Further properties of the script *)

(** ** Rounding *)

Section Rounding.

Lemma rint_cases (x : Q) :
  let f := Qfloor x in
  inject_Z f <= x /\ x < inject_Z f + 1 /\
  ((x - inject_Z f < 1 # 2 /\ rint x = f) \/
   (1 # 2 < x - inject_Z f /\ rint x = (f + 1)%Z) \/
   (x - inject_Z f == 1 # 2 /\ (rint x = f \/ rint x = (f + 1)%Z))).
Proof.
  intros f. split; [apply Qfloor_le|]. split.
  - pose proof (Qlt_floor x) as H. rewrite inject_Z_plus in H. exact H.
  - unfold rint. fold f.
    destruct (Qcompare_spec (x - inject_Z f) (1 # 2)) as [E|L|G].
    + right; right. split; [exact E|]. destruct (Z.even f); auto.
    + left. now split.
    + right; left. now split.
Qed.

(** [rint] is within one half of its argument. *)
Lemma rint_error (x : Q) :
  x - (1 # 2) <= inject_Z (rint x) /\ inject_Z (rint x) <= x + (1 # 2).
Proof.
  destruct (rint_cases x) as (Hlo & Hhi & [[H ->]|[[H ->]|[H [-> | ->]]]]);
    rewrite ?inject_Z_plus; change (inject_Z 1) with 1; lra.
Qed.

Lemma rint_inject_Z (z : Z) : rint (inject_Z z) = z.
Proof.
  unfold rint. rewrite Qfloor_Z.
  assert (E : inject_Z z - inject_Z z == 0) by ring.
  now rewrite (Qcompare_comp _ _ E _ _ (Qeq_refl (1 # 2))).
Qed.

Lemma rint_monotone (x y : Q) : x <= y -> (rint x <= rint y)%Z.
Proof.
  intros Hxy.
  pose proof (Qfloor_resp_le _ _ Hxy) as Hf.
  destruct (rint_cases x) as (Hx0 & Hx1 & Hx).
  destruct (rint_cases y) as (Hy0 & Hy1 & Hy).
  cbv zeta in *.
  destruct (Z.eq_dec (Qfloor x) (Qfloor y)) as [E|N].
  - clear Hx Hy. unfold rint. rewrite E in *.
    destruct (Qcompare_spec (x - inject_Z (Qfloor y)) (1 # 2));
      destruct (Qcompare_spec (y - inject_Z (Qfloor y)) (1 # 2));
      destruct (Z.even (Qfloor y)); try lia; exfalso; lra.
  - assert (Hx' : (rint x <= Qfloor x + 1)%Z)
      by (destruct Hx as [[_ ->]|[[_ ->]|[_ [-> | ->]]]]; lia).
    assert (Hy' : (Qfloor y <= rint y)%Z)
      by (destruct Hy as [[_ ->]|[[_ ->]|[_ [-> | ->]]]]; lia).
    lia.
Qed.

Lemma pow10_pos (n : nat) : 0 < inject_Z (pow10 n).
Proof.
  unfold pow10. rewrite <- (Zlt_Qlt 0).
  apply Z.pow_pos_nonneg; lia.
Qed.

(** A rounded number is within half a unit of the last decimal kept. *)
Lemma round_error (x : Q) (n : nat) :
  x - (1 # 2) / inject_Z (pow10 n) <= round x n /\
  round x n <= x + (1 # 2) / inject_Z (pow10 n).
Proof.
  pose proof (pow10_pos n) as HP.
  destruct (rint_error (x * inject_Z (pow10 n))) as [Hlo Hhi].
  unfold round. set (P := inject_Z (pow10 n)) in *.
  set (k := inject_Z (rint (x * P))) in *.
  split.
  - apply Qle_shift_div_l; [exact HP|].
    setoid_replace ((x - (1 # 2) / P) * P) with (x * P - (1 # 2))
      by (field; lra).
    exact Hlo.
  - apply Qle_shift_div_r; [exact HP|].
    setoid_replace ((x + (1 # 2) / P) * P) with (x * P + (1 # 2))
      by (field; lra).
    exact Hhi.
Qed.

(** Rounding keeps the order. *)
Lemma round_monotone (x y : Q) (n : nat) : x <= y -> round x n <= round y n.
Proof.
  intros Hxy. pose proof (pow10_pos n) as HP.
  unfold round. set (P := inject_Z (pow10 n)) in *.
  assert (H : (rint (x * P) <= rint (y * P))%Z).
  { apply rint_monotone. apply Qmult_le_compat_r; lra. }
  apply Qle_shift_div_l; [exact HP|].
  setoid_replace (inject_Z (rint (x * P)) / P * P)
    with (inject_Z (rint (x * P))) by (field; lra).
  now rewrite <- Zle_Qle.
Qed.

(** A rounded number lies between the rounded bounds of its argument. *)
Lemma round_between (lo hi x : Q) (n : nat) :
  lo <= x -> x <= hi -> round lo n <= round x n <= round hi n.
Proof. intros H1 H2. split; now apply round_monotone. Qed.

End Rounding.

(** ** Stock, reorder point and stored days of stock *)

Section StockCoverage.

Import Inventory.

Lemma Qle_div_iff (a b c : Q) : 0 < c -> (a <= b / c <-> a * c <= b).
Proof.
  intros Hc. split; intros H.
  - setoid_replace b with (b / c * c) by (field; lra).
    apply Qmult_le_compat_r; lra.
  - now apply Qle_shift_div_l.
Qed.

(** X2: with the same sales rate, more stock never raises the risk: it
    stays Low once Low, and it was High before if it is High after. *)
Theorem risk_antitone_in_stock (stock stock' : Z) (avg_daily_sales d d' : Q) :
  (stock <= stock')%Z ->
  days_of_stock stock avg_daily_sales = Some d ->
  days_of_stock stock' avg_daily_sales = Some d' ->
  d <= d' /\
  (stockout_risk d = "Low"%string -> stockout_risk d' = "Low"%string) /\
  (stockout_risk d' = "High"%string -> stockout_risk d = "High"%string).
Proof.
  intros Hle Hd Hd'.
  assert (Hdd : d <= d').
  { destruct (Qlt_le_dec 0 avg_daily_sales) as [Hpos|Hnonpos].
    - rewrite (days_of_stock_pos stock _ Hpos) in Hd.
      rewrite (days_of_stock_pos stock' _ Hpos) in Hd'.
      injection Hd as <-. injection Hd' as <-.
      apply Qle_div_iff; [exact Hpos|].
      setoid_replace (inject_Z stock / avg_daily_sales * avg_daily_sales)
        with (inject_Z stock) by (field; lra).
      now rewrite <- Zle_Qle.
    - rewrite (days_of_stock_nonpos stock _ Hnonpos) in Hd.
      rewrite (days_of_stock_nonpos stock' _ Hnonpos) in Hd'.
      injection Hd as <-. injection Hd' as <-. apply Qle_refl. }
  split; [exact Hdd|]. unfold stockout_risk.
  destruct (Qlt_bool d 7) eqn:B7; destruct (Qlt_bool d 14) eqn:B14;
    destruct (Qlt_bool d' 7) eqn:B7'; destruct (Qlt_bool d' 14) eqn:B14';
    order_facts; split; intros; try discriminate; try reflexivity;
    exfalso; lra.
Qed.

Lemma risk_antitone_in_stock_witness :
  inject_Z 60 / 12.5 <= inject_Z 87 / 12.5.
Proof.
  apply (risk_antitone_in_stock 60 87 12.5 _ _); [lia | reflexivity..].
Defined.

(** X3: a record with no stock has 0 days of stock and the risk High
    whatever the sales rate, and carries no inventory value and no holding
    cost. *)
Theorem no_stock_record (sku cat sup : string) (opening_stock : Z)
    (avg_daily_sales unit_cost holding_cost : Q) :
  exists r,
    inventory_record sku cat sup opening_stock avg_daily_sales 0
                     unit_cost holding_cost = Some r /\
    Days_of_Stock r == 0 /\
    Stockout_Risk r = "High"%string /\
    Inventory_Value r == 0 /\
    Holding_Cost_Total r == 0.
Proof.
  unfold inventory_record.
  assert (Hd : exists d, days_of_stock 0 avg_daily_sales = Some d /\ d == 0).
  { destruct (Qlt_le_dec 0 avg_daily_sales) as [Hpos|Hnonpos].
    - rewrite (days_of_stock_pos _ _ Hpos). eexists. split; [reflexivity|].
      field. lra.
    - rewrite (days_of_stock_nonpos _ _ Hnonpos). now exists 0. }
  destruct Hd as (d & -> & Hd0). eexists. split; [reflexivity|].
  unfold Inventory_Value, Holding_Cost_Total. simpl.
  split; [|split; [|split]].
  - now rewrite (round_comp _ _ Hd0 1%nat 1%nat eq_refl).
  - unfold stockout_risk.
    assert (H : Qlt_bool d 7 = true) by (apply Qlt_bool_iff; lra).
    now rewrite H.
  - ring.
  - ring.
Qed.

(** X4: the stored days of stock are within 0.05 of the value the risk
    was computed from, so the risk rule applied to the stored days differs
    from the stored risk only when that value is in [6.95, 7) or in
    [13.95, 14). *)
Theorem stored_days_disagree_near_boundary (sku cat sup : string)
    (opening_stock : Z) (avg_daily_sales : Q) (current_stock : Z)
    (unit_cost holding_cost d : Q) (r : InventoryRecord) :
  inventory_record sku cat sup opening_stock avg_daily_sales current_stock
                   unit_cost holding_cost = Some r ->
  days_of_stock current_stock avg_daily_sales = Some d ->
  (d - 0.05 <= Days_of_Stock r /\ Days_of_Stock r <= d + 0.05) /\
  (stockout_risk (Days_of_Stock r) <> Stockout_Risk r ->
   (6.95 <= d /\ d < 7) \/ (13.95 <= d /\ d < 14)).
Proof.
  intros Hr Hd. unfold inventory_record in Hr. rewrite Hd in Hr.
  injection Hr as <-. simpl.
  pose proof (round_error d 1) as [Elo Ehi].
  assert (E : (1 # 2) / inject_Z (pow10 1) == 0.05) by reflexivity.
  rewrite E in Elo, Ehi.
  split; [now split|].
  intros Hneq.
  destruct (Qlt_le_dec d 6.95) as [H1|H1].
  { exfalso. apply Hneq. unfold stockout_risk.
    assert (A : Qlt_bool (round d 1) 7 = true) by (apply Qlt_bool_iff; lra).
    assert (B : Qlt_bool d 7 = true) by (apply Qlt_bool_iff; lra).
    now rewrite A, B. }
  destruct (Qlt_le_dec d 7) as [H2|H2]; [left; now split|].
  pose proof (round_monotone 7 d 1 H2) as M7.
  assert (R7 : round 7 1 == 7) by reflexivity. rewrite R7 in M7.
  destruct (Qlt_le_dec d 13.95) as [H3|H3].
  { exfalso. apply Hneq. unfold stockout_risk.
    assert (A : Qlt_bool (round d 1) 7 = false)
      by (apply Qlt_bool_false_iff; lra).
    assert (B : Qlt_bool d 7 = false) by (apply Qlt_bool_false_iff; lra).
    assert (A' : Qlt_bool (round d 1) 14 = true) by (apply Qlt_bool_iff; lra).
    assert (B' : Qlt_bool d 14 = true) by (apply Qlt_bool_iff; lra).
    now rewrite A, B, A', B'. }
  destruct (Qlt_le_dec d 14) as [H4|H4]; [right; now split|].
  pose proof (round_monotone 14 d 1 H4) as M14.
  assert (R14 : round 14 1 == 14) by reflexivity. rewrite R14 in M14.
  exfalso. apply Hneq. unfold stockout_risk.
  assert (A : Qlt_bool (round d 1) 7 = false)
    by (apply Qlt_bool_false_iff; lra).
  assert (B : Qlt_bool d 7 = false) by (apply Qlt_bool_false_iff; lra).
  assert (A' : Qlt_bool (round d 1) 14 = false)
    by (apply Qlt_bool_false_iff; lra).
  assert (B' : Qlt_bool d 14 = false) by (apply Qlt_bool_false_iff; lra).
  now rewrite A, B, A', B'.
Qed.

End StockCoverage.

Lemma stored_days_disagree_near_boundary_witness :
  (inject_Z 87 / 12.5 - 0.05 <= round (inject_Z 87 / 12.5) 1 /\
   round (inject_Z 87 / 12.5) 1 <= inject_Z 87 / 12.5 + 0.05).
Proof.
  exact (proj1 (stored_days_disagree_near_boundary
                  "SKU-0001" "Textiles" "SupplierA" 100 12.5 87 50 1
                  (inject_Z 87 / 12.5) _ eq_refl eq_refl)).
Defined.

(** ** The inventory generator *)

Section InventoryGenerator.

Import Inventory InventoryData.

Context {rng : Type} {RS : RandomState rng} {RR : RandomRanges rng}.

Lemma for_each_Forall2 {A B : Type} (R : A -> B -> Prop) (xs : list A)
    (body : A -> Gen rng B) :
  (forall x s, R x (fst (body x s))) ->
  forall s, Forall2 R xs (fst (for_each xs body s)).
Proof.
  intros Hbody. induction xs as [|x xs IH]; intros s; simpl.
  - constructor.
  - unfold bind, ret.
    pose proof (Hbody x s) as Hx.
    destruct (body x s) as [y s1]. simpl in Hx.
    pose proof (IH s1) as Hxs.
    destruct (for_each xs body s1) as [ys s2]. simpl in *.
    now constructor.
Qed.

Lemma appended_Forall2 {A B : Type} (R : A -> B -> Prop) (xs : list A)
    (rows : list (option B)) :
  Forall2 (fun x o => exists r, o = Some r /\ R x r) xs rows ->
  exists rs, appended rows = Some rs /\ Forall2 R xs rs.
Proof.
  induction 1 as [|x o xs rows (r & -> & Hr) _ (rs & IHa & IHf)]; simpl.
  - exists []. split; [reflexivity | constructor].
  - rewrite IHa. exists (r :: rs). split; [reflexivity | now constructor].
Qed.

(** A choice from a non-empty list is one of its elements. *)
Lemma choice_In (xs : list string) (s : rng) :
  xs <> [] -> In (fst (choice xs s)) xs.
Proof.
  intros Hne. unfold choice, bind, ret.
  assert (Hlen : (0 < Z.of_nat (List.length xs))%Z).
  { destruct xs; [contradiction | simpl; lia]. }
  pose proof (randint_range 0 (Z.of_nat (List.length xs)) s Hlen) as Hi.
  destruct (randint 0 (Z.of_nat (List.length xs)) s) as [i s1]. simpl in *.
  apply nth_In. lia.
Qed.

Lemma inventory_row_in_range (sku : string) (s : rng) :
  exists r,
    fst (inventory_row sku s) = Some r /\ SKU r = sku /\ in_range r.
Proof.
  unfold inventory_row.
  unfold bind at 1.
  pose proof (choice_In categories s ltac:(discriminate)) as Hcat.
  destruct (choice categories s) as [cat s1]. simpl in Hcat.
  unfold bind at 1.
  pose proof (choice_In SupplierData.suppliers s1 ltac:(discriminate)) as Hsup.
  destruct (choice SupplierData.suppliers s1) as [sup s2]. simpl in Hsup.
  unfold bind, ret.
  pose proof (randint_range 50 500 s2 eq_refl) as Hopen.
  destruct (randint 50 500 s2) as [opening s3]. simpl in Hopen.
  pose proof (uniform_range 1 20 s3 eq_refl) as [Havg1 Havg2].
  destruct (uniform 1 20 s3) as [avg s4]. simpl in Havg1, Havg2.
  pose proof (randint_range 0 400 s4 eq_refl) as Hcur.
  destruct (randint 0 400 s4) as [cur s5]. simpl in Hcur.
  pose proof (uniform_range 50 2000 s5 eq_refl) as [Huc1 Huc2].
  destruct (uniform 50 2000 s5) as [uc s6]. simpl in Huc1, Huc2.
  pose proof (uniform_range 0.5 5 s6 eq_refl) as [Hhc1 Hhc2].
  destruct (uniform 0.5 5 s6) as [hc s7]. simpl in Hhc1, Hhc2.
  simpl. unfold inventory_record.
  assert (Hpos : 0 < avg) by lra.
  rewrite (days_of_stock_pos cur avg Hpos).
  eexists. split; [reflexivity|]. split; [reflexivity|].
  assert (Hc0 : 0 <= inject_Z cur) by (rewrite <- (Zle_Qle 0); lia).
  assert (Hc1 : inject_Z cur <= 399) by (rewrite <- (Zle_Qle _ 399); lia).
  assert (Hd0 : 0 <= inject_Z cur / avg).
  { apply Qle_div_iff; [exact Hpos | lra]. }
  assert (Hd1 : inject_Z cur / avg <= 399).
  { apply Qle_shift_div_r; [exact Hpos | nra]. }
  unfold in_range, reorder_point. simpl.
  repeat split; try assumption; try lia.
  - apply (Qle_trans _ (round 1 2)); [discriminate|]. apply round_monotone; lra.
  - apply (Qle_trans _ (round 20 2)); [|discriminate]. apply round_monotone; lra.
  - apply (Qle_trans _ (round 14 0)); [discriminate|]. apply round_monotone; lra.
  - apply (Qle_trans _ (round 280 0)); [|discriminate]. apply round_monotone; lra.
  - apply (Qle_trans _ (round 0 1)); [discriminate|]. now apply round_monotone.
  - apply (Qle_trans _ (round 399 1)); [|discriminate]. now apply round_monotone.
  - apply (Qle_trans _ (round 50 2)); [discriminate|]. apply round_monotone; lra.
  - apply (Qle_trans _ (round 2000 2)); [|discriminate]. apply round_monotone; lra.
  - apply (Qle_trans _ (round 0.5 2)); [discriminate|]. apply round_monotone; lra.
  - apply (Qle_trans _ (round 5 2)); [|discriminate]. apply round_monotone; lra.
  - unfold stockout_risk.
    destruct (Qlt_bool _ 7); [|destruct (Qlt_bool _ 14)]; simpl; auto.
  - unfold movement.
    destruct (Qgt_bool _ 10); [|destruct (Qgt_bool _ 5)]; simpl; auto.
Qed.

Lemma inventory_data_rows (s : rng) :
  exists rows,
    fst (inventory_data s) = Some rows /\
    Forall2 (fun sku r => SKU r = sku /\ in_range r) skus rows.
Proof.
  unfold inventory_data, bind, ret.
  pose proof (for_each_Forall2
                (fun sku o => exists r, o = Some r /\ SKU r = sku /\ in_range r)
                skus inventory_row inventory_row_in_range s) as H.
  destruct (for_each skus inventory_row s) as [rows s1]. simpl in *.
  now apply appended_Forall2.
Qed.

(** X5: the inventory generator never faults on a division and appends
    exactly one record per SKU, in the order of the SKU list: 100 records. *)
Theorem inventory_data_one_record_per_sku (s : rng) :
  exists rows,
    fst (inventory_data s) = Some rows /\
    map SKU rows = skus /\
    List.length rows = 100%nat.
Proof.
  destruct (inventory_data_rows s) as (rows & Hrows & HF).
  exists rows. split; [exact Hrows|].
  assert (Hmap : map SKU rows = skus).
  { clear Hrows. induction HF as [|sku r skus' rows' [Hsku _] _ IH]; simpl.
    - reflexivity.
    - now rewrite Hsku, IH. }
  split; [exact Hmap|].
  rewrite <- (length_map SKU), Hmap. reflexivity.
Qed.

(** X6: every record of the generated inventory table has its category
    and supplier in the two fixed lists, an opening stock from 50 to 499,
    a current stock from 0 to 399, stored values within the rounded
    ranges of its draws (sales rate in [1, 20], reorder point in [14, 280],
    days of stock in [0, 399], unit cost in [50, 2000], holding cost in
    [0.5, 5]) and one of the three risk and of the three movement labels. *)
Theorem inventory_data_in_range (s : rng) (rows : list InventoryRecord) :
  fst (inventory_data s) = Some rows -> Forall in_range rows.
Proof.
  intros H. destruct (inventory_data_rows s) as (rows' & Hrows & HF).
  rewrite H in Hrows. injection Hrows as <-.
  clear H. induction HF as [|sku r skus' rows' [_ Hr] _ IH];
    constructor; assumption.
Qed.

End InventoryGenerator.

Lemma inventory_data_one_record_per_sku_witness :
  exists rows,
    fst (InventoryData.inventory_data (rng := Z) 7%Z) = Some rows /\
    map Inventory.SKU rows = InventoryData.skus /\
    List.length rows = 100%nat.
Proof.
  exact (@inventory_data_one_record_per_sku Z lcg lcg_ranges 7%Z).
Defined.

Lemma inventory_data_in_range_witness :
  match fst (InventoryData.inventory_data (rng := Z) 7%Z) with
  | Some rows => Forall InventoryData.in_range rows
  | None => False
  end.
Proof.
  destruct (fst (InventoryData.inventory_data (rng := Z) 7%Z)) as [rows|] eqn:E.
  - exact (@inventory_data_in_range Z lcg lcg_ranges 7%Z rows E).
  - destruct (@inventory_data_rows Z lcg lcg_ranges 7%Z) as (rows & H & _).
    rewrite E in H. discriminate.
Defined.

(** ** Stored risk against stored days of stock *)

Section StoredRisk.

Import Inventory.

(** X7: in every record the stored days of stock are on the side of the
    thresholds that the stored risk names, the thresholds themselves
    included: at most 7 when High, from 7 to 14 when Medium, at least 14
    when Low. *)
Theorem stored_days_within_stored_risk (sku cat sup : string)
    (opening_stock : Z) (avg_daily_sales : Q) (current_stock : Z)
    (unit_cost holding_cost : Q) (r : InventoryRecord) :
  inventory_record sku cat sup opening_stock avg_daily_sales current_stock
                   unit_cost holding_cost = Some r ->
  (Stockout_Risk r = "High"%string -> Days_of_Stock r <= 7) /\
  (Stockout_Risk r = "Medium"%string ->
   7 <= Days_of_Stock r /\ Days_of_Stock r <= 14) /\
  (Stockout_Risk r = "Low"%string -> 14 <= Days_of_Stock r).
Proof.
  intros Hr. unfold inventory_record in Hr.
  destruct (days_of_stock current_stock avg_daily_sales) as [d|];
    [|discriminate].
  injection Hr as <-. simpl.
  assert (R7 : round 7 1 == 7) by reflexivity.
  assert (R14 : round 14 1 == 14) by reflexivity.
  assert (Hlt7 : d < 7 -> round d 1 <= 7).
  { intros H. rewrite <- R7. apply round_monotone. lra. }
  assert (Hge7 : 7 <= d -> 7 <= round d 1).
  { intros H. rewrite <- R7 at 1. now apply round_monotone. }
  assert (Hlt14 : d < 14 -> round d 1 <= 14).
  { intros H. rewrite <- R14. apply round_monotone. lra. }
  assert (Hge14 : 14 <= d -> 14 <= round d 1).
  { intros H. rewrite <- R14 at 1. now apply round_monotone. }
  unfold stockout_risk.
  destruct (Qlt_bool d 7) eqn:B7; destruct (Qlt_bool d 14) eqn:B14;
    order_facts; repeat split; intros; try discriminate; auto.
Qed.

Lemma stored_days_within_stored_risk_witness :
  round (inject_Z 87 / 12.5) 1 <= 7.
Proof.
  refine (proj1 (stored_days_within_stored_risk
                   "SKU-0001" "Textiles" "SupplierA" 100 12.5 87 50 1
                   _ eq_refl) eq_refl).
Defined.

End StoredRisk.

(** ** SKU identifiers *)

Section SkuIdentifiers.

Import InventoryData.

#[local] Set Warnings "-abstract-large-number".

Lemma append_empty_r (s : string) : (s ++ "")%string = s.
Proof. induction s as [|c s IH]; simpl; congruence. Qed.

(** The decimal digits of a number carry no sign, so [zfill] only adds
    zeros in front of them. *)
Lemma zfill_digits (d : Decimal.uint) (width : nat) :
  zfill (DecimalString.NilEmpty.string_of_uint d) width
  = (zeros (width - String.length (DecimalString.NilEmpty.string_of_uint d))
     ++ DecimalString.NilEmpty.string_of_uint d)%string.
Proof.
  destruct d; simpl; try reflexivity.
  now rewrite append_empty_r.
Qed.

(** Reading a zero-filled number back. *)
Definition read_back (s : string) : option nat :=
  option_map Nat.of_uint (DecimalString.NilEmpty.uint_of_string s).

Lemma read_back_zeros (k : nat) (s : string) :
  read_back (zeros k ++ s) = read_back s.
Proof.
  induction k as [|k IH]; simpl; [reflexivity|].
  unfold read_back in *. simpl.
  destruct (DecimalString.NilEmpty.uint_of_string (zeros k ++ s)) as [u|];
    destruct (DecimalString.NilEmpty.uint_of_string s) as [v|];
    simpl in *; try discriminate; try reflexivity.
  exact IH.
Qed.

Lemma read_back_zfill_str (i width : nat) :
  read_back (zfill (str i) width) = Some i.
Proof.
  unfold str. rewrite zfill_digits, read_back_zeros.
  unfold read_back. rewrite DecimalString.NilEmpty.usu. simpl.
  now rewrite DecimalNat.Unsigned.of_to.
Qed.

Lemma sku_length_check :
  forallb (fun i => Nat.eqb (String.length (sku i)) 8) (seq 0 10000) = true.
Proof. vm_compute. reflexivity. Qed.

(** X8: SKU identifiers of different numbers differ, an identifier of a
    number below 10000 has 8 characters, and the 100 identifiers of the
    script are pairwise distinct. *)
Theorem sku_identifiers :
  (forall i j, sku i = sku j -> i = j) /\
  (forall i, (i < 10000)%nat -> String.length (sku i) = 8%nat) /\
  NoDup skus /\ List.length skus = 100%nat.
Proof.
  assert (Hinj : forall i j, sku i = sku j -> i = j).
  { intros i j H. unfold sku in H. simpl in H.
    injection H as H.
    pose proof (read_back_zfill_str i 4) as Hi.
    rewrite H, read_back_zfill_str in Hi. now injection Hi. }
  split; [exact Hinj|]. split; [|split].
  - intros i Hi.
    pose proof (proj1 (forallb_forall _ _) sku_length_check i) as H.
    apply Nat.eqb_eq, H, in_seq. lia.
  - unfold skus. apply Finite.Injective_map_NoDup; [exact Hinj|].
    apply seq_NoDup.
  - reflexivity.
Qed.

End SkuIdentifiers.

(** ** The supplier table as generated *)

Lemma int_floor (x : Q) : 0 <= x -> int x = Qfloor x.
Proof.
  intros H0. unfold int.
  assert (Hnum : (0 <= Qnum x)%Z).
  { unfold Qle in H0. simpl in H0. lia. }
  rewrite Z.quot_div_nonneg by lia. now destruct x.
Qed.

Section SupplierTable.

Import SupplierData.

Context {rng : Type} {RS : RandomState rng} {RR : RandomRanges rng}.

(** What the loop body fixes of a record besides [well_drawn]. *)
Let generated (sup : string) (month : nat) (r : SupplierMonthlyRecord)
    : Prop :=
  Supplier r = sup /\ Month r = month /\ well_drawn r /\
  Promised_Lead_Time r = 14%Z /\
  (7 <= Actual_Lead_Time r < 21)%Z /\
  0.5 <= Defect_Rate_Pct r /\ Defect_Rate_Pct r <= 8.

Lemma supplier_month_generated (sup : string) (month : nat) (s : rng) :
  generated sup month (fst (supplier_month sup month s)).
Proof.
  pose proof (supplier_month_well_drawn sup month s) as Hwd.
  unfold supplier_month, bind, ret in *.
  destruct (randint 20 80 s) as [orders s1].
  destruct (uniform 0.65 0.98 s1) as [fraction s2].
  pose proof (uniform_range 0.5 8.0 s2 eq_refl) as [Hd1 Hd2].
  destruct (uniform 0.5 8.0 s2) as [defect s3]. simpl in Hd1, Hd2.
  pose proof (randint_range 7 21 s3 eq_refl) as Hlead.
  destruct (randint 7 21 s3) as [lead s4]. simpl in *.
  unfold generated. simpl. repeat split; try assumption; try lia.
  - apply (Qle_trans _ (round 0.5 2)); [discriminate|].
    now apply round_monotone.
  - apply (Qle_trans _ (round 8 2)); [|discriminate].
    apply round_monotone. lra.
Qed.

Lemma map_concat_list_prod {A B C : Type} (proj : C -> A * B)
    (xs : list A) (ys : list B) (blocks : list (list C)) :
  Forall2 (fun x blk => map proj blk = map (pair x) ys) xs blocks ->
  map proj (List.concat blocks) = list_prod xs ys.
Proof.
  induction 1 as [|x blk xs blocks Hblk _ IH]; simpl; [reflexivity|].
  now rewrite map_app, Hblk, IH.
Qed.

Lemma supplier_data_blocks (s : rng) :
  exists blocks,
    fst (supplier_data s) = List.concat blocks /\
    Forall2 (fun sup blk => Forall2 (generated sup) months blk)
            suppliers blocks.
Proof.
  unfold supplier_data, bind, ret.
  pose proof (for_each_Forall2
    (fun sup blk => Forall2 (generated sup) months blk) suppliers
    (fun sup => for_each months (supplier_month sup))
    (fun sup s' => for_each_Forall2 (generated sup) months
                     (supplier_month sup) (supplier_month_generated sup) s')
    s) as H.
  destruct (for_each suppliers _ s) as [blocks s1]. simpl in *.
  now exists blocks.
Qed.

Lemma Forall2_generated_Forall (P : SupplierMonthlyRecord -> Prop)
    (blocks : list (list SupplierMonthlyRecord)) :
  (forall sup month r, generated sup month r -> P r) ->
  Forall2 (fun sup blk => Forall2 (generated sup) months blk)
          suppliers blocks ->
  Forall P (List.concat blocks).
Proof.
  intros HP H. apply Forall_concat.
  induction H as [|sup blk sups blocks' Hblk _ IH]; constructor; [|exact IH].
  clear IH. induction Hblk as [|m r ms blk' Hr _ IH]; constructor;
    [now apply (HP sup m) | exact IH].
Qed.

(** X9: the supplier table has one record for every supplier and every
    month, suppliers first and months 1 to 12 within each, 60 in all; each
    has the promised lead time 14, an actual lead time from 7 to 20, so a
    lead-time variance from -7 to 6, and a stored defect rate from 0.5 to
    8. *)
Theorem supplier_data_shape (s : rng) :
  map (fun r => (Supplier r, Month r)) (fst (supplier_data s))
  = list_prod suppliers months /\
  List.length (fst (supplier_data s)) = 60%nat /\
  Forall (fun r =>
            Promised_Lead_Time r = 14%Z /\
            (7 <= Actual_Lead_Time r < 21)%Z /\
            (-7 <= Lead_Time_Variance r <= 6)%Z /\
            0.5 <= Defect_Rate_Pct r /\ Defect_Rate_Pct r <= 8)
         (fst (supplier_data s)).
Proof.
  destruct (supplier_data_blocks s) as (blocks & -> & HF).
  assert (Hmap : map (fun r => (Supplier r, Month r)) (List.concat blocks)
                 = list_prod suppliers months).
  { apply map_concat_list_prod.
    eapply Forall2_impl; [|exact HF]. intros sup blk Hblk. simpl in Hblk.
    clear HF. induction Hblk as [|m r ms blk' (Hs & Hm & _) _ IH]; simpl.
    - reflexivity.
    - now rewrite Hs, Hm, IH. }
  split; [exact Hmap|]. split.
  - rewrite <- (length_map (fun r => (Supplier r, Month r))), Hmap.
    reflexivity.
  - apply Forall2_generated_Forall; [|exact HF].
    intros sup month r (_ & _ & _ & Hp & Ha & Hd1 & Hd2).
    unfold Lead_Time_Variance. repeat split; try assumption; lia.
Qed.

(** The rate of a well-drawn record: the truncation loses less than one
    delivery, which is at most 5 percent of 20 orders or more. *)
Lemma well_drawn_OTD_Rate (r : SupplierMonthlyRecord) :
  well_drawn r -> exists q, OTD_Rate r = Finite q /\ 60 <= q /\ q <= 98.
Proof.
  intros (fraction & Hlo & Hhi & Horders & Hon).
  unfold OTD_Rate, otd_rate. rewrite true_divide_nonzero by lia.
  rewrite Hon. cbn [fmul fround]. eexists. split; [reflexivity|].
  set (b := inject_Z (Total_Orders r)).
  assert (Hb : 20 <= b) by (unfold b; rewrite <- (Zle_Qle 20); lia).
  assert (Hx : 0 <= b * fraction) by nra.
  rewrite (int_floor _ Hx).
  pose proof (Qfloor_le (b * fraction)) as Hfl.
  pose proof (Qlt_floor (b * fraction)) as Hfu.
  rewrite inject_Z_plus in Hfu. change (inject_Z 1) with 1 in Hfu.
  set (a := inject_Z (Qfloor (b * fraction))) in *.
  assert (Hq0 : 60 <= a / b * 100).
  { setoid_replace (a / b * 100) with (a * 100 / b) by (field; lra).
    apply Qle_shift_div_l; nra. }
  assert (Hq1 : a / b * 100 <= 98).
  { setoid_replace (a / b * 100) with (a * 100 / b) by (field; lra).
    apply Qle_shift_div_r; nra. }
  split.
  - apply (Qle_trans _ (round 60 2)); [discriminate|].
    now apply round_monotone.
  - apply (Qle_trans _ (round 98 2)); [|discriminate].
    now apply round_monotone.
Qed.

(** X10: every record of the generated supplier table has a finite
    on-time-delivery rate, between 60 and 98 percent. *)
Theorem supplier_data_OTD_Rate (s : rng) :
  Forall (fun r => exists q, OTD_Rate r = Finite q /\ 60 <= q /\ q <= 98)
         (fst (supplier_data s)).
Proof.
  destruct (supplier_data_blocks s) as (blocks & -> & HF).
  apply Forall2_generated_Forall; [|exact HF].
  intros sup month r (_ & _ & Hwd & _). now apply well_drawn_OTD_Rate.
Qed.

End SupplierTable.

Lemma supplier_data_shape_witness :
  List.length (fst (SupplierData.supplier_data (rng := Z) 42%Z)) = 60%nat.
Proof.
  exact (proj1 (proj2 (@supplier_data_shape Z lcg lcg_ranges 42%Z))).
Defined.

Lemma supplier_data_OTD_Rate_witness :
  Forall (fun r => exists q,
            SupplierData.OTD_Rate r = Finite q /\ 60 <= q /\ q <= 98)
         (fst (SupplierData.supplier_data (rng := Z) 42%Z)).
Proof.
  exact (@supplier_data_OTD_Rate Z lcg lcg_ranges 42%Z).
Defined.

(** ** The scorecard of the generated supplier table *)

Section MeanBounds.

Definition finite_within (lo hi : Q) (x : float64) : Prop :=
  exists q, x = Finite q /\ lo <= q /\ q <= hi.

Lemma fsum_finite_within (lo hi : Q) (xs : list float64) :
  Forall (finite_within lo hi) xs ->
  exists t, fsum xs = Finite t /\
    inject_Z (Z.of_nat (List.length xs)) * lo <= t /\
    t <= inject_Z (Z.of_nat (List.length xs)) * hi.
Proof.
  induction 1 as [|x xs (q & -> & Hq0 & Hq1) _ (t & Ht & Ht0 & Ht1)].
  - exists 0. cbn [fsum List.length].
    change (inject_Z (Z.of_nat 0)) with 0.
    split; [reflexivity|]. split; lra.
  - exists (q + t). cbn [fsum List.length]. rewrite Ht. cbn [fadd].
    rewrite Nat2Z.inj_succ, <- Z.add_1_r, inject_Z_plus.
    change (inject_Z 1) with 1.
    repeat split; lra.
Qed.

Lemma dropna_finite_within (lo hi : Q) (xs : list float64) :
  Forall (finite_within lo hi) xs -> dropna xs = xs.
Proof.
  unfold dropna.
  induction 1 as [|x xs (q & -> & _) _ IH]; simpl; congruence.
Qed.

(** The mean of a non-empty column of finite values within two bounds is
    finite and within them. *)
Lemma mean_finite_within (lo hi : Q) (xs : list float64) :
  xs <> [] -> Forall (finite_within lo hi) xs ->
  finite_within lo hi (mean xs).
Proof.
  intros Hne HF. unfold mean.
  rewrite (dropna_finite_within lo hi xs HF).
  destruct (fsum_finite_within lo hi xs HF) as (t & Ht & Ht0 & Ht1).
  destruct xs as [|x xs']; [contradiction|].
  rewrite Ht. set (n := inject_Z (Z.of_nat (List.length (x :: xs')))) in *.
  assert (Hn : 0 < n).
  { unfold n. rewrite <- (Zlt_Qlt 0). simpl. lia. }
  unfold fdiv.
  destruct (Qeq_bool n 0) eqn:E.
  - apply Qeq_bool_iff in E. lra.
  - exists (t / n). split; [reflexivity|]. split.
    + apply Qle_shift_div_l; lra.
    + apply Qle_shift_div_r; lra.
Qed.

Lemma fround_finite_within (lo hi : Q) (n : nat) (x : float64) :
  finite_within lo hi x ->
  finite_within (round lo n) (round hi n) (fround x n).
Proof.
  intros (q & -> & H0 & H1). exists (round q n).
  split; [reflexivity|]. split; now apply round_monotone.
Qed.

End MeanBounds.

Section GeneratedScorecard.

Import SupplierData Scorecard.

Lemma group_block (sup name : string) (blk : list SupplierMonthlyRecord) :
  Forall (fun r => Supplier r = name) blk ->
  group blk sup = if String.eqb name sup then blk else [].
Proof.
  unfold group.
  induction 1 as [|r blk Hr _ IH]; simpl.
  - now destruct (String.eqb name sup).
  - rewrite Hr, IH. now destruct (String.eqb name sup).
Qed.

Lemma group_app (df df' : list SupplierMonthlyRecord) (sup : string) :
  group (df ++ df') sup = group df sup ++ group df' sup.
Proof. apply filter_app. Qed.

(** In a table made of one block per name, the group of a name that
    occurs once is its block; a name that does not occur has no rows. *)
Lemma group_concat_absent (names : list string)
    (blocks : list (list SupplierMonthlyRecord)) (sup : string) :
  Forall2 (fun name blk => Forall (fun r => Supplier r = name) blk)
          names blocks ->
  ~ In sup names -> group (List.concat blocks) sup = [].
Proof.
  induction 1 as [|name blk names blocks Hblk _ IH]; intros Hnot; simpl.
  - reflexivity.
  - rewrite group_app, (group_block sup name blk Hblk).
    destruct (String.eqb_spec name sup) as [->|Hne].
    + exfalso. apply Hnot. now left.
    + simpl. apply IH. intros Hin. apply Hnot. now right.
Qed.

Lemma group_concat_present (names : list string)
    (blocks : list (list SupplierMonthlyRecord)) (sup : string) :
  Forall2 (fun name blk => Forall (fun r => Supplier r = name) blk)
          names blocks ->
  NoDup names -> In sup names ->
  exists blk, In blk blocks /\ group (List.concat blocks) sup = blk.
Proof.
  induction 1 as [|name blk names blocks Hblk HF IH]; intros Hnd Hin.
  - contradiction.
  - simpl. rewrite group_app, (group_block sup name blk Hblk).
    inversion Hnd as [|? ? Hnotin Hnd']; subst.
    destruct (String.eqb_spec name sup) as [->|Hne].
    + exists blk. split; [now left|].
      rewrite (group_concat_absent names blocks sup HF Hnotin).
      apply app_nil_r.
    + destruct Hin as [->|Hin]; [contradiction|].
      destruct (IH Hnd' Hin) as (blk' & Hin' & Hg).
      exists blk'. split; [now right | exact Hg].
Qed.

Lemma sum_Total_Orders_bounds (g : list SupplierMonthlyRecord) :
  Forall (fun r => (20 <= SupplierData.Total_Orders r < 80)%Z) g ->
  (20 * Z.of_nat (List.length g) <= sum_Total_Orders g
   <= 79 * Z.of_nat (List.length g))%Z.
Proof.
  unfold sum_Total_Orders.
  induction 1 as [|r g Hr _ IH]; cbn [map fold_right List.length]; lia.
Qed.

End GeneratedScorecard.

Lemma Forall2_In_r {A B : Type} (R : A -> B -> Prop) (xs : list A)
    (ys : list B) (y : B) :
  Forall2 R xs ys -> In y ys -> exists x, In x xs /\ R x y.
Proof.
  induction 1 as [|x y' xs ys Hxy _ IH]; intros Hin.
  - contradiction.
  - destruct Hin as [->|Hin].
    + exists x. split; [now left | exact Hxy].
    + destruct (IH Hin) as (x' & Hx' & HR). exists x'. split; [now right|].
      exact HR.
Qed.

Lemma Forall2_Forall_r {A B : Type} (R : A -> B -> Prop) (P : B -> Prop)
    (xs : list A) (ys : list B) :
  (forall x y, R x y -> P y) -> Forall2 R xs ys -> Forall P ys.
Proof.
  intros HP. induction 1 as [|x y xs ys Hxy _ IH]; constructor;
    [now apply (HP x) | exact IH].
Qed.

Section ScorecardOfGeneratedTable.

Import SupplierData Scorecard.

Context {rng : Type} {RS : RandomState rng} {RR : RandomRanges rng}.

(** The group of a supplier in the generated table: twelve records, each
    well drawn and in range. *)
Lemma generated_group (s : rng) (sup : string) :
  In sup suppliers ->
  let g := group (fst (supplier_data s)) sup in
  List.length g = 12%nat /\
  Forall (fun r => well_drawn r /\
                   (-7 <= Lead_Time_Variance r <= 6)%Z /\
                   0.5 <= Defect_Rate_Pct r /\ Defect_Rate_Pct r <= 8) g.
Proof.
  intros Hin. cbv zeta.
  destruct (supplier_data_blocks s) as (blocks & -> & HF).
  assert (Hnames : Forall2 (fun name blk =>
                              Forall (fun r => Supplier r = name) blk)
                           suppliers blocks).
  { eapply Forall2_impl; [|exact HF]. intros name blk Hblk.
    eapply Forall2_Forall_r; [|exact Hblk]. now intros m r (Hs & _). }
  assert (Hnd : NoDup suppliers).
  { repeat constructor; simpl; intuition discriminate. }
  destruct (group_concat_present _ _ sup Hnames Hnd Hin) as (blk & Hblk & ->).
  destruct (Forall2_In_r _ _ _ blk HF Hblk) as (name & _ & Hgen).
  split.
  - rewrite <- (Forall2_length Hgen). reflexivity.
  - eapply Forall2_Forall_r; [|exact Hgen].
    intros m r (_ & _ & Hwd & Hp & Ha & Hd0 & Hd1).
    unfold Lead_Time_Variance. repeat split; try assumption; lia.
Qed.

(** X11: in the scorecard of the generated table every one of the five
    suppliers has a row, and all its values are finite: the average
    on-time-delivery rate is within [60, 98], the average defect rate
    within [0.5, 8], the average lead-time variance within [-7, 6], the
    total of orders within [240, 948] and the score within [-6, 61.5]; a
    name outside the list has no row. *)
Theorem scorecard_of_generated_table (s : rng) (sup : string) :
  (In sup suppliers ->
   exists e a d v p,
     supplier_scorecard (fst (supplier_data s)) sup = Some e /\
     Avg_OTD_Rate e = Finite a /\ 60 <= a /\ a <= 98 /\
     Avg_Defect_Rate e = Finite d /\ 0.5 <= d /\ d <= 8 /\
     Avg_Lead_Time_Variance e = Finite v /\ - (7) <= v /\ v <= 6 /\
     (240 <= Total_Orders e <= 948)%Z /\
     Performance_Score e = Finite p /\ - (6) <= p /\ p <= 61.5) /\
  (~ In sup suppliers ->
   supplier_scorecard (fst (supplier_data s)) sup = None).
Proof.
  split.
  - intros Hin.
    destruct (generated_group s sup Hin) as [Hlen HF].
    unfold supplier_scorecard.
    set (g := group (fst (supplier_data s)) sup) in *.
    assert (Hne : g <> []) by (intros E; rewrite E in Hlen; discriminate).
    assert (Hotd : finite_within 60 98 (fround (mean_OTD_Rate g) 2)).
    { destruct (fround_finite_within 60 98 2 (mean_OTD_Rate g))
        as (q & Hq & Hq0 & Hq1).
      - apply mean_finite_within.
        + intros E. apply Hne. now apply map_eq_nil in E.
        + apply Forall_map. eapply Forall_impl; [|exact HF].
          intros r (Hwd & _). now apply well_drawn_OTD_Rate.
      - exists q. split; [exact Hq|]. split.
        + apply (Qle_trans _ (round 60 2)); [discriminate | exact Hq0].
        + apply (Qle_trans _ (round 98 2)); [exact Hq1 | discriminate]. }
    assert (Hdef : finite_within 0.5 8 (fround (mean_Defect_Rate_Pct g) 2)).
    { destruct (fround_finite_within 0.5 8 2 (mean_Defect_Rate_Pct g))
        as (q & Hq & Hq0 & Hq1).
      - apply mean_finite_within.
        + intros E. apply Hne. now apply map_eq_nil in E.
        + apply Forall_map. eapply Forall_impl; [|exact HF].
          intros r (_ & _ & Hd0 & Hd1). now eexists.
      - exists q. split; [exact Hq|]. split.
        + apply (Qle_trans _ (round 0.5 2)); [discriminate | exact Hq0].
        + apply (Qle_trans _ (round 8 2)); [exact Hq1 | discriminate]. }
    assert (Hvar : finite_within (- (7)) 6
                     (fround (mean_Lead_Time_Variance g) 2)).
    { destruct (fround_finite_within (- (7)) 6 2 (mean_Lead_Time_Variance g))
        as (q & Hq & Hq0 & Hq1).
      - apply mean_finite_within.
        + intros E. apply Hne. now apply map_eq_nil in E.
        + apply Forall_map. eapply Forall_impl; [|exact HF].
          intros r (_ & Hv & _). eexists. split; [reflexivity|].
          split; [rewrite <- (Zle_Qle (-7)) | rewrite <- (Zle_Qle _ 6)]; lia.
      - exists q. split; [exact Hq|]. split.
        + apply (Qle_trans _ (round (- (7)) 2)); [discriminate | exact Hq0].
        + apply (Qle_trans _ (round 6 2)); [exact Hq1 | discriminate]. }
    assert (Hsum : (240 <= sum_Total_Orders g <= 948)%Z).
    { pose proof (sum_Total_Orders_bounds g) as H.
      rewrite Hlen in H. apply H.
      eapply Forall_impl; [|exact HF].
      now intros r ((f & _ & _ & Ho & _) & _). }
    destruct Hotd as (a & Ea & Ha0 & Ha1).
    destruct Hdef as (d & Ed & Hd0 & Hd1).
    destruct Hvar as (v & Ev & Hv0 & Hv1).
    destruct g as [|r g'] eqn:Eg; [contradiction|]. rewrite <- Eg in *.
    exists (scorecard_entry g), a, d, v,
           (round (a * 0.5 + - (d * 3) + - (v * 2)) 2).
    unfold scorecard_entry. cbn [Avg_OTD_Rate Avg_Defect_Rate
      Avg_Lead_Time_Variance Total_Orders Performance_Score].
    rewrite Ea, Ed, Ev. unfold performance_score.
    rewrite weighted_score_Finite. cbn [fround].
    repeat split; try assumption; try lia.
    + apply (Qle_trans _ (round (- (6)) 2)); [discriminate|].
      apply round_monotone. lra.
    + apply (Qle_trans _ (round 61.5 2)); [|discriminate].
      apply round_monotone. lra.
  - intros Hnot. unfold supplier_scorecard.
    destruct (supplier_data_blocks s) as (blocks & -> & HF).
    rewrite (group_concat_absent suppliers blocks sup); [reflexivity| |exact Hnot].
    eapply Forall2_impl; [|exact HF]. intros name blk Hblk.
    eapply Forall2_Forall_r; [|exact Hblk]. now intros m r (Hs & _).
Qed.

End ScorecardOfGeneratedTable.

Lemma scorecard_of_generated_table_witness :
  exists e,
    Scorecard.supplier_scorecard
      (fst (SupplierData.supplier_data (rng := Z) 42%Z)) "SupplierC" = Some e.
Proof.
  destruct (proj1 (@scorecard_of_generated_table Z lcg lcg_ranges 42%Z
                     "SupplierC"%string))
    as (e & _ & _ & _ & _ & He & _).
  - simpl. auto.
  - now exists e.
Defined.

(** ** Bar colours *)

Section BarColours.

Import Scorecard Dashboard.

(** X12: the bar of a performance score is green exactly when the rating
    is Excellent, amber exactly when it is Good and red exactly when it is
    Needs Improvement, for every score, NaN and the infinities included. *)
Theorem score_color_matches_rating (x : float64) :
  (score_color x = Some "#70AD47"%string
   <-> rating x = "⭐⭐⭐ Excellent"%string) /\
  (score_color x = Some "#FFC000"%string
   <-> rating x = "⭐⭐ Good"%string) /\
  (score_color x = Some "#FF0000"%string
   <-> rating x = "⭐ Needs Improvement"%string).
Proof.
  unfold score_color, rating.
  destruct (fgt_bool x (Finite 40)); [|destruct (fgt_bool x (Finite 30))];
    cbn; repeat split; intros H; try discriminate H; reflexivity.
Qed.

(** X13: the three colour choices never miss a key of the palette: each
    gives green, amber or red; an average that is NaN is always drawn red,
    and the rate and defect colours follow their thresholds on finite
    values (85 and 75 percent included, 3 and 5 percent excluded). *)
Theorem bar_colors_total (v : float64) :
  let palette := [Some "#70AD47"; Some "#FFC000"; Some "#FF0000"]%string in
  In (otd_color v) palette /\ In (defect_color v) palette /\
  In (score_color v) palette /\
  (otd_color NaN = Some "#FF0000"%string /\
   defect_color NaN = Some "#FF0000"%string /\
   score_color NaN = Some "#FF0000"%string) /\
  (forall q : Q,
     (otd_color (Finite q) = Some "#70AD47"%string <-> 85 <= q) /\
     (otd_color (Finite q) = Some "#FFC000"%string <-> 75 <= q /\ q < 85) /\
     (otd_color (Finite q) = Some "#FF0000"%string <-> q < 75) /\
     (defect_color (Finite q) = Some "#70AD47"%string <-> q < 3) /\
     (defect_color (Finite q) = Some "#FFC000"%string <-> 3 <= q /\ q < 5) /\
     (defect_color (Finite q) = Some "#FF0000"%string <-> 5 <= q)).
Proof.
  cbv zeta. split; [|split; [|split; [|split]]].
  - unfold otd_color.
    destruct (fge_bool v (Finite 85)); [|destruct (fge_bool v (Finite 75))];
      cbn; auto.
  - unfold defect_color.
    destruct (flt_bool v (Finite 3)); [|destruct (flt_bool v (Finite 5))];
      cbn; auto.
  - unfold score_color.
    destruct (fgt_bool v (Finite 40)); [|destruct (fgt_bool v (Finite 30))];
      cbn; auto.
  - repeat split.
  - intros q. unfold otd_color, defect_color, flt_bool, fge_bool, fgt_bool.
    destruct (Qle_bool 85 q) eqn:H85; destruct (Qle_bool 75 q) eqn:H75;
      destruct (Qgt_bool 3 q) eqn:H3; destruct (Qgt_bool 5 q) eqn:H5;
      order_facts;
      repeat match goal with
      | H : Qle_bool _ _ = true |- _ => apply Qle_bool_iff in H
      | H : Qle_bool _ _ = false |- _ =>
          apply not_true_iff_false in H; rewrite Qle_bool_iff in H;
          apply Qnot_le_lt in H
      end;
      cbn; repeat split; intros; try discriminate; try reflexivity;
      try lra.
Qed.

End BarColours.

(** ** The risk table and the high-risk list *)

Section RiskReports.

Import Inventory InventoryData Reports.

(** The rows of a category with a risk. *)
Let both (cat risk : string) (r : InventoryRecord) : bool :=
  (has_category cat r && has_risk risk r)%bool.

(** Sums over a list of labels. *)
Let total (f : string -> nat) (labels : list string) : nat :=
  fold_right Nat.add 0%nat (map f labels).

Lemma total_add (f g : string -> nat) (labels : list string) :
  total (fun l => (f l + g l)%nat) labels
  = (total f labels + total g labels)%nat.
Proof.
  unfold total. induction labels as [|l ls IH]; simpl; lia.
Qed.

Lemma total_ext (f g : string -> nat) (labels : list string) :
  (forall l, f l = g l) -> total f labels = total g labels.
Proof.
  intros H. unfold total. f_equal. now apply map_ext.
Qed.

Lemma total_zero (labels : list string) :
  total (fun _ => 0%nat) labels = 0%nat.
Proof. unfold total. induction labels; simpl; auto. Qed.

Lemma total_one_label (x : string) (labels : list string) :
  NoDup labels -> In x labels ->
  total (fun l => if String.eqb x l then 1%nat else 0%nat) labels = 1%nat.
Proof.
  unfold total.
  induction 1 as [|l labels Hnot _ IH]; intros Hin; [contradiction|].
  cbn [map fold_right].
  destruct (String.eqb_spec x l) as [->|Hne].
  - assert (Z0 : fold_right Nat.add 0%nat
                   (map (fun l' => if String.eqb l l' then 1%nat else 0%nat)
                        labels) = 0%nat).
    { clear IH Hin. induction labels as [|l' labels IH]; [reflexivity|].
      cbn [map fold_right].
      destruct (String.eqb_spec l l') as [->|_].
      - exfalso. apply Hnot. now left.
      - rewrite IH; [reflexivity|]. intros H. apply Hnot. now right. }
    now rewrite Z0.
  - destruct Hin as [->|Hin]; [contradiction|]. now rewrite IH.
Qed.

(** Counting the rows that satisfy [p] label by label gives them all. *)
Lemma count_by_label (key : InventoryRecord -> string)
    (p : InventoryRecord -> bool) (labels : list string)
    (df : list InventoryRecord) :
  NoDup labels -> Forall (fun r => In (key r) labels) df ->
  total (fun l => List.length
                    (filter (fun r => String.eqb (key r) l && p r)%bool df))
        labels
  = List.length (filter p df).
Proof.
  intros Hnd. induction 1 as [|r df Hr _ IH].
  - simpl. apply total_zero.
  - rewrite (total_ext _
      (fun l => ((if String.eqb (key r) l then if p r then 1 else 0 else 0)
                 + List.length
                     (filter (fun r0 => String.eqb (key r0) l && p r0)%bool
                             df))%nat)).
    + rewrite total_add, IH. cbn [filter].
      destruct (p r).
      * rewrite (total_one_label (key r) labels Hnd Hr). reflexivity.
      * rewrite (total_ext _ (fun _ => 0%nat)), total_zero; [reflexivity|].
        intros l. now destruct (String.eqb (key r) l).
    + intros l. cbn [filter].
      destruct (String.eqb (key r) l); destruct (p r); reflexivity.
Qed.

(** A cell read with the fill value counts the rows of its category and
    risk, also where the table has no such row or column. *)
Lemma cell_risk_summary (df : list InventoryRecord) (cat risk : string) :
  cell (risk_summary df cat risk) = List.length (filter (both cat risk) df).
Proof.
  unfold risk_summary. fold (both cat risk).
  destruct (existsb (has_category cat) df && existsb (has_risk risk) df)%bool
    eqn:E; [reflexivity|].
  simpl. symmetry. apply length_zero_iff_nil.
  destruct (filter (both cat risk) df) as [|r rest] eqn:F; [reflexivity|].
  exfalso.
  assert (Hin : In r (filter (both cat risk) df)) by (rewrite F; now left).
  apply filter_In in Hin. destruct Hin as [Hin Hb].
  unfold both in Hb. apply andb_true_iff in Hb. destruct Hb as [Hc Hr].
  apply andb_false_iff in E. destruct E as [E|E];
    apply not_true_iff_false in E; apply E; apply existsb_exists;
    now exists r.
Qed.

(** X14: when every row has one of the five categories and one of the
    three risk labels (as every generated row has), the risk table read
    with its fill value accounts for every row once: the three cells of a
    category add up to its rows, the cells of a risk over the categories
    add up to the rows with that risk (for High, the high-risk SKU count),
    and all cells together to the length of the table. *)
Theorem risk_summary_accounts_for_rows (df_inv : list InventoryRecord) :
  Forall (fun r => In (Category r) categories /\
                   In (Stockout_Risk r) ["High"; "Medium"; "Low"]%string)
         df_inv ->
  (forall cat,
     (cell (risk_summary df_inv cat "High")
      + cell (risk_summary df_inv cat "Medium")
      + cell (risk_summary df_inv cat "Low"))%nat
     = List.length (filter (has_category cat) df_inv)) /\
  (forall risk,
     total (fun cat => cell (risk_summary df_inv cat risk)) categories
     = List.length (filter (has_risk risk) df_inv)) /\
  total (fun cat => cell (risk_summary df_inv cat "High")) categories
  = high_risk_skus df_inv /\
  total (fun cat =>
           (cell (risk_summary df_inv cat "High")
            + cell (risk_summary df_inv cat "Medium")
            + cell (risk_summary df_inv cat "Low"))%nat) categories
  = List.length df_inv.
Proof.
  intros HF.
  assert (Hcats : NoDup categories).
  { repeat constructor; simpl; intuition discriminate. }
  assert (Hrisks : NoDup ["High"; "Medium"; "Low"]%string).
  { repeat constructor; simpl; intuition discriminate. }
  assert (Hc : Forall (fun r => In (Category r) categories) df_inv).
  { eapply Forall_impl; [|exact HF]. now intros r [H _]. }
  assert (Hr : Forall (fun r => In (Stockout_Risk r)
                                   ["High"; "Medium"; "Low"]%string) df_inv).
  { eapply Forall_impl; [|exact HF]. now intros r [_ H]. }
  assert (Hcat : forall cat,
    (cell (risk_summary df_inv cat "High")
     + cell (risk_summary df_inv cat "Medium")
     + cell (risk_summary df_inv cat "Low"))%nat
    = List.length (filter (has_category cat) df_inv)).
  { intros cat. rewrite !cell_risk_summary.
    rewrite <- (count_by_label Stockout_Risk (has_category cat) _ _
                  Hrisks Hr).
    unfold total. cbn [map fold_right].
    rewrite Nat.add_0_r, Nat.add_assoc.
    f_equal; [f_equal|]; f_equal; apply filter_ext; intros r;
      unfold both, has_risk; apply andb_comm. }
  assert (Hrisk : forall risk,
    total (fun cat => cell (risk_summary df_inv cat risk)) categories
    = List.length (filter (has_risk risk) df_inv)).
  { intros risk.
    rewrite <- (count_by_label Category (has_risk risk) _ _ Hcats Hc).
    apply total_ext. intros cat. apply cell_risk_summary. }
  split; [exact Hcat|]. split; [exact Hrisk|]. split; [apply Hrisk|].
  rewrite (total_ext _ _ categories Hcat).
  assert (Hall : forall l : list InventoryRecord,
            filter (fun _ => true) l = l).
  { induction l as [|r l IH]; simpl; congruence. }
  transitivity (List.length (filter (fun _ => true) df_inv));
    [|now rewrite Hall].
  rewrite <- (count_by_label Category (fun _ => true) _ _ Hcats Hc).
  apply total_ext. intros cat. f_equal. apply filter_ext. intros r.
  unfold has_category. now rewrite andb_true_r.
Qed.

Lemma risk_summary_accounts_for_rows_witness :
  let df := [mkInventoryRecord "SKU-0001" "Textiles" "SupplierA" 100 87
               12.5 175 7 "High" "Fast" 50 1;
             mkInventoryRecord "SKU-0002" "Packaging" "SupplierB" 60 240
               11.85 166 20.3 "Low" "Fast" 1065.95 1.68] in
  total (fun cat => cell (risk_summary df cat "High")) categories
  = high_risk_skus df.
Proof.
  intros df.
  refine (proj1 (proj2 (proj2 (risk_summary_accounts_for_rows df _)))).
  constructor; [split; simpl; auto 10|].
  constructor; [split; simpl; auto 10|].
  constructor.
Defined.

(** X15: the high-risk list has ten rows, or all the high-risk rows when
    there are at most ten; each of its rows is the five columns of a
    record of the table whose risk is High, and with at most ten such
    records none is left out. *)
Theorem high_risk_detail_rows (df_inv : list InventoryRecord) :
  let columns := fun r => (SKU r, Category r, Current_Stock r,
                           Days_of_Stock r, Avg_Daily_Sales r) in
  List.length (high_risk_detail df_inv)
  = Nat.min 10 (high_risk_skus df_inv) /\
  (forall row, In row (high_risk_detail df_inv) ->
     exists r, In r df_inv /\ Stockout_Risk r = "High"%string /\
               row = columns r) /\
  ((high_risk_skus df_inv <= 10)%nat ->
   forall r, In r df_inv -> Stockout_Risk r = "High"%string ->
             In (columns r) (high_risk_detail df_inv)).
Proof.
  cbv zeta. unfold high_risk_detail, high_risk_skus. split; [|split].
  - now rewrite length_firstn, length_map.
  - intros row Hin.
    assert (Hin' : In row
      (map (fun r => (SKU r, Category r, Current_Stock r, Days_of_Stock r,
                      Avg_Daily_Sales r))
           (filter (has_risk "High") df_inv))).
    { rewrite <- (firstn_skipn 10). apply in_or_app. now left. }
    apply in_map_iff in Hin'.
    destruct Hin' as (r & <- & Hr). apply filter_In in Hr.
    destruct Hr as [Hr Hrisk]. exists r. repeat split; [exact Hr|].
    now apply String.eqb_eq.
  - intros Hle r Hr Hrisk.
    rewrite firstn_all2 by now rewrite length_map.
    apply in_map_iff. exists r. split; [reflexivity|].
    apply filter_In. split; [exact Hr|]. now apply String.eqb_eq.
Qed.

Lemma high_risk_detail_rows_witness :
  let r := mkInventoryRecord "SKU-0001" "Textiles" "SupplierA" 100 87
             12.5 175 7 "High" "Fast" 50 1 in
  In (SKU r, Category r, Current_Stock r, Days_of_Stock r, Avg_Daily_Sales r)
     (high_risk_detail [r]).
Proof.
  intros r.
  apply (proj2 (proj2 (high_risk_detail_rows [r])));
    [unfold high_risk_skus; simpl; lia | now left | reflexivity].
Defined.

End RiskReports.

(** ** Stored sales rate, movement label and reorder point *)

Section StoredMovement.

Import Inventory.

Lemma round_2_error (x : Q) : x - 0.005 <= round x 2 /\ round x 2 <= x + 0.005.
Proof.
  pose proof (round_error x 2) as [Elo Ehi].
  assert (E : (1 # 2) / inject_Z (pow10 2) == 0.005) by reflexivity.
  rewrite E in Elo, Ehi. now split.
Qed.

Lemma round_0_error (x : Q) : x - 0.5 <= round x 0 /\ round x 0 <= x + 0.5.
Proof.
  pose proof (round_error x 0) as [Elo Ehi].
  assert (E : (1 # 2) / inject_Z (pow10 0) == 0.5) by reflexivity.
  rewrite E in Elo, Ehi. now split.
Qed.

(** X16: in every record the stored sales rate is on the side of the
    thresholds that the movement label names, the thresholds included (at
    least 10 when Fast, from 5 to 10 when Medium, at most 5 when Slow), and
    the stored reorder point, computed from the unrounded rate, is within
    0.57 of 14 times the stored rate. *)
Theorem stored_rate_within_movement (sku cat sup : string)
    (opening_stock : Z) (avg_daily_sales : Q) (current_stock : Z)
    (unit_cost holding_cost : Q) (r : InventoryRecord) :
  inventory_record sku cat sup opening_stock avg_daily_sales current_stock
                   unit_cost holding_cost = Some r ->
  (Movement_Type r = "Fast"%string -> 10 <= Avg_Daily_Sales r) /\
  (Movement_Type r = "Medium"%string ->
   5 <= Avg_Daily_Sales r /\ Avg_Daily_Sales r <= 10) /\
  (Movement_Type r = "Slow"%string -> Avg_Daily_Sales r <= 5) /\
  14 * Avg_Daily_Sales r - 0.57 <= Reorder_Point r /\
  Reorder_Point r <= 14 * Avg_Daily_Sales r + 0.57.
Proof.
  intros Hr. unfold inventory_record in Hr.
  destruct (days_of_stock current_stock avg_daily_sales) as [d|];
    [|discriminate].
  injection Hr as <-. simpl.
  set (a := avg_daily_sales).
  assert (R5 : round 5 2 == 5) by reflexivity.
  assert (R10 : round 10 2 == 10) by reflexivity.
  assert (Hle5 : a <= 5 -> round a 2 <= 5).
  { intros H. rewrite <- R5. now apply round_monotone. }
  assert (Hge5 : 5 <= a -> 5 <= round a 2).
  { intros H. rewrite <- R5 at 1. now apply round_monotone. }
  assert (Hle10 : a <= 10 -> round a 2 <= 10).
  { intros H. rewrite <- R10. now apply round_monotone. }
  assert (Hge10 : 10 <= a -> 10 <= round a 2).
  { intros H. rewrite <- R10 at 1. now apply round_monotone. }
  destruct (round_2_error a) as [Ea0 Ea1].
  destruct (round_0_error (reorder_point a)) as [Er0 Er1].
  unfold reorder_point in *. unfold movement. fold a.
  destruct (Qgt_bool a 10) eqn:B10; destruct (Qgt_bool a 5) eqn:B5;
    order_facts;
    (split; [|split; [|split; [|split]]]);
    intros; try discriminate; try (split; [apply Hge5|apply Hle10]);
    try apply Hge10; try apply Hle5; try lra.
Qed.

Lemma stored_rate_within_movement_witness :
  10 <= round 11.853 2.
Proof.
  refine (proj1 (stored_rate_within_movement
                   "SKU-0001" "Textiles" "SupplierA" 100 11.853 87 50 1
                   _ eq_refl) eq_refl).
Defined.

End StoredMovement.

(** ** Units sold and revenue *)

Section SalesRecords.

Import Sales.

Lemma int_nonpos (x : Q) : x <= 0 -> (int x <= 0)%Z.
Proof.
  intros H. unfold int.
  assert (Hnum : (Qnum x <= 0)%Z).
  { unfold Qle in H. simpl in H. lia. }
  replace (Qnum x) with (- - Qnum x)%Z by lia.
  rewrite Z.quot_opp_l by lia.
  pose proof (Z.quot_pos (- Qnum x) (Z.pos (Qden x))). lia.
Qed.

(** X17: every category of the script has a base rate, so the units sold
    are computed without a missing key; they are never negative, nor is
    the revenue at a non-negative price; a noise draw that is zero or
    negative gives no unit and no revenue; otherwise the units are at most
    the seasonal, noisy base rate. *)
Theorem units_sold_never_negative (cat : string) (seasonality noise price : Q) :
  In cat InventoryData.categories ->
  exists base units,
    getitem base_sales cat = Some base /\ (80 <= base <= 300)%Z /\
    units_sold cat seasonality noise = Some units /\
    (0 <= units)%Z /\
    (0 <= price -> 0 <= revenue units price) /\
    (0 <= seasonality -> noise <= 0 ->
     units = 0%Z /\ revenue units price == 0) /\
    (0 <= seasonality -> 0 <= noise ->
     inject_Z units <= inject_Z base * seasonality * noise).
Proof.
  intros Hin.
  assert (Hbase : exists base,
            getitem base_sales cat = Some base /\ (80 <= base <= 300)%Z).
  { simpl in Hin.
    destruct Hin as [<-|[<-|[<-|[<-|[<-|[]]]]]]; eexists;
      (split; [reflexivity | lia]). }
  destruct Hbase as (base & Hget & Hb).
  exists base, (Z.max 0 (int (inject_Z base * seasonality * noise))).
  unfold units_sold. rewrite Hget.
  set (x := inject_Z base * seasonality * noise).
  assert (Hb0 : 0 <= inject_Z base) by (rewrite <- (Zle_Qle 0); lia).
  assert (Hneg : 0 <= seasonality -> noise <= 0 -> x <= 0).
  { intros Hs Hn. assert (0 <= inject_Z base * seasonality) by nra.
    unfold x. nra. }
  assert (Hpos : 0 <= seasonality -> 0 <= noise -> 0 <= x).
  { intros Hs Hn. assert (0 <= inject_Z base * seasonality) by nra.
    unfold x. nra. }
  split; [reflexivity|]. split; [exact Hb|]. split; [reflexivity|].
  split; [lia|]. split; [|split].
  - intros Hp. unfold revenue.
    apply Qmult_le_0_compat; [|exact Hp].
    rewrite <- (Zle_Qle 0). lia.
  - intros Hs Hn. pose proof (int_nonpos x (Hneg Hs Hn)) as Hi.
    unfold revenue. rewrite Z.max_l by lia. split; [reflexivity | ring].
  - intros Hs Hn. rewrite (int_floor x (Hpos Hs Hn)).
    pose proof (Qfloor_le x) as Hfl.
    assert (H0 : (0 <= Qfloor x)%Z).
    { rewrite <- (Qfloor_Z 0). apply Qfloor_resp_le. now apply Hpos. }
    now rewrite Z.max_r by lia.
Qed.

Lemma units_sold_never_negative_witness :
  exists base units,
    getitem base_sales "Furniture" = Some base /\ (80 <= base <= 300)%Z /\
    units_sold "Furniture" 1.15 0.93 = Some units /\ (0 <= units)%Z.
Proof.
  destruct (units_sold_never_negative "Furniture" 1.15 0.93 750)
    as (base & units & H1 & H2 & H3 & H4 & _).
  - simpl. auto.
  - now exists base, units.
Defined.

End SalesRecords.

(** ** Key figures of the generated inventory table *)

Section KeyFigures.

Import Inventory InventoryData Reports.

Context {rng : Type} {RS : RandomState rng} {RR : RandomRanges rng}.

Lemma totals_bounds (f : InventoryRecord -> Q) (hi : Q)
    (df : list InventoryRecord) :
  Forall (fun r => 0 <= f r /\ f r <= hi) df ->
  0 <= fold_right Qplus 0 (map f df) /\
  fold_right Qplus 0 (map f df) <= inject_Z (Z.of_nat (List.length df)) * hi.
Proof.
  induction 1 as [|r df [H0 H1] _ [IH0 IH1]].
  - cbn [map fold_right List.length].
    change (inject_Z (Z.of_nat 0)) with 0. split; lra.
  - cbn [map fold_right List.length].
    rewrite Nat2Z.inj_succ, <- Z.add_1_r, inject_Z_plus.
    change (inject_Z 1) with 1. split; lra.
Qed.

(** X18: on the generated inventory table the total inventory value is
    between 0 and 79,800,000 and the monthly holding cost between 0 and
    5,985,000; the high-risk and the slow-moving counts are at most 100,
    and since the table has 100 rows the high-risk count is also the
    high-risk share in percent, as the report prints it. *)
Theorem key_figures_of_generated_table (s : rng)
    (rows : list InventoryRecord) :
  fst (inventory_data s) = Some rows ->
  0 <= total_inv_value rows /\ total_inv_value rows <= 79800000 /\
  0 <= total_holding_cost rows /\ total_holding_cost rows <= 5985000 /\
  (high_risk_skus rows <= 100)%nat /\ (slow_moving_skus rows <= 100)%nat /\
  inject_Z (Z.of_nat (high_risk_skus rows))
  / inject_Z (Z.of_nat (List.length rows)) * 100
  == inject_Z (Z.of_nat (high_risk_skus rows)).
Proof.
  intros H. destruct (inventory_data_rows s) as (rows' & Hrows & HF).
  rewrite H in Hrows. injection Hrows as <-.
  assert (Hlen : List.length rows = 100%nat).
  { rewrite <- (Forall2_length HF). reflexivity. }
  assert (Hin : Forall in_range rows).
  { eapply Forall2_Forall_r; [|exact HF]. now intros sku r [_ Hr]. }
  destruct (totals_bounds Inventory_Value 798000 rows) as [V0 V1].
  { eapply Forall_impl; [|exact Hin].
    intros r (_ & _ & _ & Hc & _ & _ & _ & [Hu0 Hu1] & _).
    unfold Inventory_Value.
    assert (C0 : 0 <= inject_Z (Current_Stock r))
      by (rewrite <- (Zle_Qle 0); lia).
    assert (C1 : inject_Z (Current_Stock r) <= 399)
      by (rewrite <- (Zle_Qle _ 399); lia).
    split; nra. }
  destruct (totals_bounds Holding_Cost_Total 59850 rows) as [C0 C1].
  { eapply Forall_impl; [|exact Hin].
    intros r (_ & _ & _ & Hc & _ & _ & _ & _ & [Hh0 Hh1] & _).
    unfold Holding_Cost_Total.
    assert (S0 : 0 <= inject_Z (Current_Stock r))
      by (rewrite <- (Zle_Qle 0); lia).
    assert (S1 : inject_Z (Current_Stock r) <= 399)
      by (rewrite <- (Zle_Qle _ 399); lia).
    split; nra. }
  rewrite Hlen in V1, C1. change (inject_Z (Z.of_nat 100)) with 100 in V1, C1.
  unfold total_inv_value, total_holding_cost.
  repeat split; try assumption; try lra.
  - unfold high_risk_skus. rewrite <- Hlen. apply filter_length_le.
  - unfold slow_moving_skus. rewrite <- Hlen. apply filter_length_le.
  - rewrite Hlen. change (inject_Z (Z.of_nat 100)) with 100. field.
Qed.

End KeyFigures.

Lemma key_figures_of_generated_table_witness :
  match fst (InventoryData.inventory_data (rng := Z) 7%Z) with
  | Some rows => (Reports.high_risk_skus rows <= 100)%nat
  | None => False
  end.
Proof.
  destruct (fst (InventoryData.inventory_data (rng := Z) 7%Z)) as [rows|] eqn:E.
  - exact (proj1 (proj2 (proj2 (proj2 (proj2
             (@key_figures_of_generated_table Z lcg lcg_ranges 7%Z rows E)))))).
  - destruct (@inventory_data_rows Z lcg lcg_ranges 7%Z) as (rows & H & _).
    rewrite E in H. discriminate.
Defined.

(** ** The rate as a percentage, the score as a ranking *)

Section RateAndScore.

Import SupplierData Scorecard.

(** X19: with at least one order and between no and all deliveries on
    time, the rate is a finite percentage from 0 to 100; it is 0 with no
    delivery on time and 100 with all of them. *)
Theorem otd_rate_percentage (on_time total : Z) :
  (0 < total)%Z -> (0 <= on_time <= total)%Z ->
  (exists q, otd_rate on_time total = Finite q /\ 0 <= q /\ q <= 100) /\
  feq (otd_rate 0 total) (Finite 0) /\
  feq (otd_rate total total) (Finite 100).
Proof.
  intros Ht Ho.
  assert (Hb : 0 < inject_Z total) by (rewrite <- (Zlt_Qlt 0); lia).
  assert (Hval : forall a : Z,
            otd_rate a total
            = Finite (round (inject_Z a / inject_Z total * 100) 2)).
  { intros a. unfold otd_rate. now rewrite true_divide_nonzero by lia. }
  split; [|split].
  - rewrite Hval. eexists. split; [reflexivity|].
    assert (Ha0 : 0 <= inject_Z on_time) by (rewrite <- (Zle_Qle 0); lia).
    assert (Ha1 : inject_Z on_time <= inject_Z total)
      by (rewrite <- Zle_Qle; lia).
    assert (Hq0 : 0 <= inject_Z on_time / inject_Z total * 100).
    { setoid_replace (inject_Z on_time / inject_Z total * 100)
        with (inject_Z on_time * 100 / inject_Z total) by (field; lra).
      apply Qle_shift_div_l; lra. }
    assert (Hq1 : inject_Z on_time / inject_Z total * 100 <= 100).
    { setoid_replace (inject_Z on_time / inject_Z total * 100)
        with (inject_Z on_time * 100 / inject_Z total) by (field; lra).
      apply Qle_shift_div_r; lra. }
    split.
    + apply (Qle_trans _ (round 0 2)); [discriminate|].
      now apply round_monotone.
    + apply (Qle_trans _ (round 100 2)); [|discriminate].
      now apply round_monotone.
  - rewrite Hval. simpl.
    assert (E : inject_Z 0 / inject_Z total * 100 == 0) by (field; lra).
    now rewrite (round_comp _ _ E 2%nat 2%nat eq_refl).
  - rewrite Hval. simpl.
    assert (E : inject_Z total / inject_Z total * 100 == 100) by (field; lra).
    now rewrite (round_comp _ _ E 2%nat 2%nat eq_refl).
Qed.

Lemma otd_rate_percentage_witness :
  exists q, otd_rate 18 20 = Finite q /\ 0 <= q /\ q <= 100.
Proof.
  apply (otd_rate_percentage 18 20); lia.
Defined.

(** X20: the score never falls when the on-time rate rises and the defect
    rate and the lead-time variance do not rise, and the rating follows the
    score: above an Excellent score every score is Excellent, below a Needs
    Improvement score every score is Needs Improvement. *)
Theorem performance_score_monotone (a a' d d' v v' : Q) :
  a <= a' -> d' <= d -> v' <= v ->
  exists p p',
    performance_score (Finite a) (Finite d) (Finite v) = Finite p /\
    performance_score (Finite a') (Finite d') (Finite v') = Finite p' /\
    p <= p' /\
    (rating (Finite p) = "⭐⭐⭐ Excellent"%string ->
     rating (Finite p') = "⭐⭐⭐ Excellent"%string) /\
    (rating (Finite p') = "⭐ Needs Improvement"%string ->
     rating (Finite p) = "⭐ Needs Improvement"%string).
Proof.
  intros Ha Hd Hv.
  unfold performance_score. rewrite !weighted_score_Finite. cbn [fround].
  do 2 eexists. split; [reflexivity|]. split; [reflexivity|].
  set (p := round (a * 0.5 + - (d * 3) + - (v * 2)) 2).
  set (p' := round (a' * 0.5 + - (d' * 3) + - (v' * 2)) 2).
  assert (Hp : p <= p') by (apply round_monotone; lra).
  split; [exact Hp|].
  unfold rating, fgt_bool.
  destruct (Qgt_bool p 40) eqn:B40; destruct (Qgt_bool p 30) eqn:B30;
    destruct (Qgt_bool p' 40) eqn:B40'; destruct (Qgt_bool p' 30) eqn:B30';
    order_facts; split; intros; try discriminate; try reflexivity;
    exfalso; lra.
Qed.

Lemma performance_score_monotone_witness :
  exists p p',
    performance_score (Finite 80.25) (Finite 2) (Finite 1) = Finite p /\
    performance_score (Finite 90) (Finite 2) (Finite 1) = Finite p' /\
    p <= p'.
Proof.
  destruct (performance_score_monotone 80.25 90 2 2 1 1)
    as (p & p' & H1 & H2 & H3 & _); try discriminate.
  now exists p, p'.
Defined.

End RateAndScore.
